(** * The request pipeline of the UTDRS API gateway

    A shallow embedding of [src/api/middleware/security.py],
    [src/api/middleware/error_handler.py] and the middleware registration of
    [src/app.py], with the properties of the pipeline stated over it; the
    validator of [CORS_ORIGINS] in [src/config/production.py] and the JSON
    formatter of [src/utils/enhanced_logger.py] come with it.

    Python strings are modelled as [string]: a sequence of code points below
    256 (the range of a Latin-1 decoded HTTP header).  Python floats do not
    occur in the modelled code paths except as the elapsed time of a log
    line, which is left out of the log records. *)

From Stdlib Require Import String Ascii List ZArith Lia Bool DecimalString.
Import ListNotations.
Local Open Scope string_scope.
Local Open Scope Z_scope.
Local Set Warnings "-register-all".

(* ------------------------------------------------------------------------- *)
(** ** Python primitives used by the middleware *)

Module Py.

Definition code (c : ascii) : nat := nat_of_ascii c.

(** [str.lower()] on code points below 256: A-Z and the upper-case letters
    of the Latin-1 supplement (0xC0-0xDE without the multiplication sign
    0xD7) move up by 32. *)
Definition lower_char (c : ascii) : ascii :=
  let n := code c in
  if ((65 <=? n) && (n <=? 90))%nat then ascii_of_nat (n + 32)
  else if ((192 <=? n) && (n <=? 222) && negb (n =? 215))%nat
       then ascii_of_nat (n + 32)
  else c.

Fixpoint lower (s : string) : string :=
  match s with
  | EmptyString => EmptyString
  | String c r => String (lower_char c) (lower r)
  end.

(** [sub in s] for two strings. *)
Fixpoint str_in (sub s : string) : bool :=
  match s with
  | EmptyString => String.prefix sub EmptyString
  | String _ r => String.prefix sub s || str_in sub r
  end.

(** [x in xs] for a list of strings. *)
Definition list_in (x : string) (xs : list string) : bool :=
  existsb (String.eqb x) xs.

(** [any(p(x) for x in xs)]. *)
Definition any {A} (p : A -> bool) (xs : list A) : bool := existsb p xs.

(** [sep.join(parts)]. *)
Fixpoint join (sep : string) (parts : list string) : string :=
  match parts with
  | [] => ""
  | [p] => p
  | p :: rest => p ++ sep ++ join sep rest
  end.

(** [str(n)] for an int. *)
Definition str_of_int (z : Z) : string := NilZero.string_of_int (Z.to_int z).

(** Truthiness of a string: non-empty. *)
Definition truthy (s : string) : bool :=
  match s with EmptyString => false | _ => true end.

(** *** [int(s)] for a string, base 10

    Surrounding whitespace is stripped, one sign is allowed, and the digits
    may be grouped by single underscores.  [None] stands for the
    [ValueError] the conversion raises.  The white space of the conversion
    is narrower than that of [str.strip]: the separators U+001C to U+001F
    are not skipped.  A literal of more digits than the interpreter's limit
    (4300 by default) is refused. *)

Definition is_space (c : ascii) : bool :=
  let n := code c in
  (((9 <=? n) && (n <=? 13)) || ((28 <=? n) && (n <=? 32))
   || (n =? 133) || (n =? 160))%nat.

Definition is_digit (c : ascii) : bool :=
  let n := code c in ((48 <=? n) && (n <=? 57))%nat.

Definition digit_val (c : ascii) : Z := Z.of_nat (code c) - 48.

Fixpoint lstrip (l : list ascii) : list ascii :=
  match l with
  | c :: r => if is_space c then lstrip r else l
  | [] => []
  end.

Definition strip (l : list ascii) : list ascii :=
  rev (lstrip (rev (lstrip l))).

Fixpoint digits_from (acc : Z) (after_underscore : bool) (l : list ascii)
  : option Z :=
  match l with
  | [] => if after_underscore then None else Some acc
  | c :: r =>
      if is_digit c then digits_from (10 * acc + digit_val c) false r
      else if Ascii.eqb c "_"
           then (if after_underscore then None else digits_from acc true r)
      else None
  end.

Definition digits (l : list ascii) : option Z :=
  match l with
  | c :: r => if is_digit c then digits_from (digit_val c) false r else None
  | [] => None
  end.

Definition is_int_space (c : ascii) : bool :=
  let n := code c in
  (((9 <=? n) && (n <=? 13)) || (n =? 32) || (n =? 133) || (n =? 160))%nat.

Fixpoint int_lstrip (l : list ascii) : list ascii :=
  match l with
  | c :: r => if is_int_space c then int_lstrip r else l
  | [] => []
  end.

Definition int_strip (l : list ascii) : list ascii :=
  rev (int_lstrip (rev (int_lstrip l))).

(** [sys.get_int_max_str_digits()]. *)
Definition max_str_digits : nat := 4300.

Definition int (s : string) : option Z :=
  let l := int_strip (list_ascii_of_string s) in
  if (length (filter is_digit l) <=? max_str_digits)%nat
  then match l with
       | c :: r =>
           if Ascii.eqb c "-" then option_map Z.opp (digits r)
           else if Ascii.eqb c "+" then digits r
           else digits (c :: r)
       | [] => None
       end
  else None.

(** *** Dictionaries

    A [dict] keeps its keys in insertion order, and assigning to a key that
    is present replaces the value where the key stands. *)

Fixpoint dict_set {V} (d : list (string * V)) (k : string) (v : V)
  : list (string * V) :=
  match d with
  | [] => [(k, v)]
  | (k', v') :: r =>
      if String.eqb k k' then (k, v) :: r else (k', v') :: dict_set r k v
  end.

Fixpoint dict_get {V} (d : list (string * V)) (k : string) : option V :=
  match d with
  | [] => None
  | (k', v) :: r => if String.eqb k k' then Some v else dict_get r k
  end.

(** [dict(pairs)]: the pairs are assigned one after the other. *)
Definition dict_of {V} (pairs : list (string * V)) : list (string * V) :=
  fold_left (fun d kv => dict_set d (fst kv) (snd kv)) pairs [].

Definition keys {V} (d : list (string * V)) : list string := map fst d.

End Py.

(* ------------------------------------------------------------------------- *)
(** ** Python values that travel through JSON *)

Inductive value : Type :=
| VNone
| VBool (b : bool)
| VInt (z : Z)
| VStr (s : string)
| VList (l : list value)
| VDict (items : list (string * value)).

Definition opt_str (o : option string) : value :=
  match o with Some s => VStr s | None => VNone end.

(** An induction principle that reaches the elements of lists and the values
    of dictionaries. *)
Section value_induction.
Variable P : value -> Prop.
Hypothesis HNone : P VNone.
Hypothesis HBool : forall b, P (VBool b).
Hypothesis HInt : forall z, P (VInt z).
Hypothesis HStr : forall s, P (VStr s).
Hypothesis HList : forall l, Forall P l -> P (VList l).
Hypothesis HDict : forall items, Forall (fun kv => P (snd kv)) items ->
                                 P (VDict items).

Fixpoint value_deep_ind (v : value) : P v :=
  match v with
  | VNone => HNone
  | VBool b => HBool b
  | VInt z => HInt z
  | VStr s => HStr s
  | VList l =>
      HList l ((fix go (l : list value) : Forall P l :=
                  match l with
                  | [] => Forall_nil _
                  | x :: r => Forall_cons x (value_deep_ind x) (go r)
                  end) l)
  | VDict items =>
      HDict items
        ((fix go (l : list (string * value))
            : Forall (fun kv => P (snd kv)) l :=
            match l with
            | [] => Forall_nil _
            | kv :: r =>
                Forall_cons kv (value_deep_ind (snd kv)) (go r)
            end) items)
  end.
End value_induction.

(* ------------------------------------------------------------------------- *)
(** ** The sanitizer ([security.py], lines 131-166) *)

Module Bleach.

(** Modelled from the spec: [bleach.clean(data, tags=[], attributes={},
    strip=True)] belongs to the third-party bleach package, which is not
    part of the repository.  The spec describes the call as "strip all
    markup tags and attributes (zero tags/attributes allowed; result is
    plain text with tags removed, not escaped-and-kept)".  The model is the
    tag-stripping scanner those words describe: a tag runs from a [<] to
    the next [>] (or to the end of the input), tags are dropped, every
    character outside a tag is kept.  Entity escaping and the tree
    construction of the HTML parser are outside the model. *)
Fixpoint scan (in_tag : bool) (s : string) : string :=
  match s with
  | EmptyString => EmptyString
  | String c r =>
      if in_tag
      then (if Ascii.eqb c ">" then scan false r else scan true r)
      else (if Ascii.eqb c "<" then scan true r else String c (scan false r))
  end.

Definition clean (data : string) : string := scan false data.

End Bleach.

Section Sanitizer.

(** The string cleaner the two functions delegate to. *)
Variable clean : string -> string.

Definition sanitize_input (data : value) : value :=
  match data with
  | VStr s => VStr (clean s)
  | _ => data
  end.

Fixpoint validate_json_input (data : value) : value :=
  match data with
  | VDict items =>
      VDict
        (fold_left
           (fun sanitized kv =>
              let '(key, value) := kv in
              match value with
              | VStr _ => Py.dict_set sanitized key (sanitize_input value)
              | VDict _ =>
                  Py.dict_set sanitized key (validate_json_input value)
              | VList l =>
                  Py.dict_set sanitized key
                    (VList
                       (map (fun item =>
                               match item with
                               | VStr _ => sanitize_input item
                               | VDict _ => validate_json_input item
                               | _ => item
                               end) l))
              | _ => Py.dict_set sanitized key value
              end)
           items [])
  | _ => data
  end.

End Sanitizer.

Definition sanitize_item (clean : string -> string) (item : value) : value :=
  match item with
  | VStr _ => sanitize_input clean item
  | VDict _ => validate_json_input clean item
  | _ => item
  end.

Definition sanitize_entry (clean : string -> string) (v : value) : value :=
  match v with
  | VStr _ => sanitize_input clean v
  | VDict _ => validate_json_input clean v
  | VList l => VList (map (sanitize_item clean) l)
  | _ => v
  end.

Definition on_value {V} (f : V -> V) (kv : string * V) : string * V :=
  (fst kv, f (snd kv)).

(* ------------------------------------------------------------------------- *)
(** ** Exceptions, requests and responses *)

Inductive LocItem : Type :=
| LocStr (s : string)
| LocInt (z : Z).

(** One failure as the validation layer reports it: [error["loc"]],
    [error["msg"]], [error["type"]]. *)
Record ErrorDict : Type := mkError {
  err_loc : list LocItem;
  err_msg : string;
  err_type : string;
}.

(** The exceptions the code names.  [RateLimitExceeded] carries the
    [retry_after] attribute the rate-limit handler reads: the exception the
    limiter raises has no such attribute ([None]); it is there only when a
    caller has set it. *)
Inductive exception : Type :=
| HTTPException (status_code : Z) (detail : value)
| RequestValidationError (errors : list ErrorDict)
| ValidationError (errors : list ErrorDict)
| RateLimitExceeded (retry_after : option value)
| BusinessLogicError (message : string) (error_code : option string)
| DatabaseError (message : string) (operation : option string)
| ExternalServiceError (message : string) (service : option string)
    (status_code : option Z)
| OtherException (class_name : string) (message : string).

Definition ValueError (message : string) : exception :=
  OtherException "ValueError" message.

(** The error of reading an attribute an object does not have; as
    [ValueError] is recorded with the literal, it is recorded with the name
    of the attribute. *)
Definition AttributeError (message : string) : exception :=
  OtherException "AttributeError" message.

Inductive ExcClass : Type :=
| CHTTPException | CRequestValidationError | CValidationError
| CRateLimitExceeded | CBusinessLogicError | CDatabaseError
| CExternalServiceError | COther.

Definition class_of (exc : exception) : ExcClass :=
  match exc with
  | HTTPException _ _ => CHTTPException
  | RequestValidationError _ => CRequestValidationError
  | ValidationError _ => CValidationError
  | RateLimitExceeded _ => CRateLimitExceeded
  | BusinessLogicError _ _ => CBusinessLogicError
  | DatabaseError _ _ => CDatabaseError
  | ExternalServiceError _ _ _ => CExternalServiceError
  | OtherException _ _ => COther
  end.

Definition class_eqb (a b : ExcClass) : bool :=
  match a, b with
  | CHTTPException, CHTTPException
  | CRequestValidationError, CRequestValidationError
  | CValidationError, CValidationError
  | CRateLimitExceeded, CRateLimitExceeded
  | CBusinessLogicError, CBusinessLogicError
  | CDatabaseError, CDatabaseError
  | CExternalServiceError, CExternalServiceError
  | COther, COther => true
  | _, _ => false
  end.

(** [isinstance(exc, cls)] for the classes the code names; none of them is a
    subclass of another one the code names. *)
Definition isinstance (exc : exception) (cls : ExcClass) : bool :=
  class_eqb (class_of exc) cls.

(** The ASGI connection scope, as far as the middleware reads it.  Header
    names arrive lower-cased. *)
Record Scope : Type := mkScope {
  scope_type : string;
  scope_method : string;
  scope_url : string;
  scope_path : string;
  scope_client : option string;
  scope_headers : list (string * string);
}.

(** [request.headers.get(key)]: the first header of that name. *)
Definition headers_get (scope : Scope) (key : string) : option string :=
  Py.dict_get (scope_headers scope) (Py.lower key).

Definition headers_get_default (scope : Scope) (key default : string) : string :=
  match headers_get scope key with Some v => v | None => default end.

Inductive message : Type :=
| ResponseStart (status : Z) (headers : list (string * string))
| ResponseBody (body : string).

(** *** JSON responses *)

Module Json.

Definition dquote : ascii := "034".
Definition backslash : ascii := "092".

Definition hex (n : nat) : ascii :=
  nth n ["0"; "1"; "2"; "3"; "4"; "5"; "6"; "7"; "8"; "9";
         "a"; "b"; "c"; "d"; "e"; "f"]%char "0"%char.

Definition two (a b : ascii) : string := String a (String b "").

Definition escape (c : ascii) : string :=
  let n := Py.code c in
  if (n =? 34)%nat then two backslash dquote
  else if (n =? 92)%nat then two backslash backslash
  else if (n =? 8)%nat then two backslash "b"
  else if (n =? 12)%nat then two backslash "f"
  else if (n =? 10)%nat then two backslash "n"
  else if (n =? 13)%nat then two backslash "r"
  else if (n =? 9)%nat then two backslash "t"
  else if (n <? 32)%nat
       then two backslash "u" ++ "00" ++ two (hex (n / 16)) (hex (n mod 16))
  else String c "".

Fixpoint quote_body (s : string) : string :=
  match s with
  | EmptyString => EmptyString
  | String c r => escape c ++ quote_body r
  end.

Definition quote (s : string) : string :=
  String dquote (quote_body s) ++ String dquote "".

(** [json.dumps(content, ensure_ascii=False, separators=(",", ":"))]. *)
Fixpoint dumps (v : value) : string :=
  match v with
  | VNone => "null"
  | VBool true => "true"
  | VBool false => "false"
  | VInt z => Py.str_of_int z
  | VStr s => quote s
  | VList l => "[" ++ Py.join "," (map dumps l) ++ "]"
  | VDict items =>
      "{" ++ Py.join ","
               (map (fun kv => quote (fst kv) ++ ":" ++ dumps (snd kv)) items)
          ++ "}"
  end.

(** [text.encode("utf-8")] for code points below 256. *)
Fixpoint encode_utf8 (s : string) : string :=
  match s with
  | EmptyString => EmptyString
  | String c r =>
      let n := Py.code c in
      if (n <? 128)%nat then String c (encode_utf8 r)
      else String (ascii_of_nat (192 + n / 64))
             (String (ascii_of_nat (128 + n mod 64)) (encode_utf8 r))
  end.

Definition render (content : value) : string := encode_utf8 (dumps content).

End Json.

Record Response : Type := JSONResponse {
  resp_status : Z;
  resp_content : value;
}.

Definition body (r : Response) : string := Json.render (resp_content r).

Definition raw_headers (r : Response) : list (string * string) :=
  [("content-length", Py.str_of_int (Z.of_nat (String.length (body r))));
   ("content-type", "application/json")].

(* ------------------------------------------------------------------------- *)
(** ** Effects of one request *)

Inductive LogValue : Type :=
| LVal (v : value)
| LTypeName (exc : exception)     (* type(exc).__name__ *)
| LMessage (exc : exception)      (* str(exc) *)
| LTraceback (exc : exception)    (* traceback.format_exc() *)
| LElapsed.                       (* time.time() - start_time *)

Record LogRecord : Type := mkLog {
  log_level : string;
  log_event : string;
  log_fields : list (string * LogValue);
}.

(** What a request can change.  [state_request_id] is
    [scope["state"]["request_id"]]: the framework keeps [request.state] in
    the scope, the middleware hands the same scope on, and so every
    [Request] built on it reads and writes one state object.  [uuid_next] is the token [uuid.uuid4()] hands
    out for this request.  [wire] collects the messages the stack passes to
    the [send] it was called with, [dispatched] counts the entries into
    route dispatch. *)
Record World : Type := mkWorld {
  state_request_id : option string;
  uuid_next : string;
  wire : list message;
  log : list LogRecord;
  dispatched : nat;
}.

Inductive Outcome (A : Type) : Type :=
| Returned (a : A)
| Raised (exc : exception).
Arguments Returned {A} a.
Arguments Raised {A} exc.

Definition M (A : Type) : Type := World -> Outcome A * World.

Definition ret {A} (a : A) : M A := fun w => (Returned a, w).

Definition bind {A B} (c : M A) (k : A -> M B) : M B :=
  fun w => match c w with
           | (Returned a, w') => k a w'
           | (Raised exc, w') => (Raised exc, w')
           end.

Definition raise {A} (exc : exception) : M A := fun w => (Raised exc, w).

(** [try: c  except Exception as exc: handler(exc)]. *)
Definition try_except {A} (c : M A) (handler : exception -> M A) : M A :=
  fun w => match c w with
           | (Returned a, w') => (Returned a, w')
           | (Raised exc, w') => handler exc w'
           end.

Declare Scope eff_scope.
Delimit Scope eff_scope with eff.
Notation "x <- c ;; k" := (bind c (fun x => k))
  (at level 61, c at next level, right associativity) : eff_scope.
Notation "c ;; k" := (bind c (fun _ => k))
  (at level 61, right associativity) : eff_scope.
Local Open Scope eff_scope.

Definition Send : Type := message -> M unit.
Definition App : Type := Scope -> Send -> M unit.

Definition get_request_id : M (option string) :=
  fun w => (Returned (state_request_id w), w).

Definition set_request_id (request_id : string) : M unit :=
  fun w => (Returned tt,
            mkWorld (Some request_id) (uuid_next w) (wire w) (log w)
              (dispatched w)).

Definition uuid4 : M string := fun w => (Returned (uuid_next w), w).

Definition emit (level event : string) (fields : list (string * LogValue))
  : M unit :=
  fun w => (Returned tt,
            mkWorld (state_request_id w) (uuid_next w) (wire w)
              (log w ++ [mkLog level event fields]) (dispatched w)).

(** The [send] of the server below the stack. *)
Definition server_send : Send :=
  fun m w => (Returned tt,
              mkWorld (state_request_id w) (uuid_next w) (wire w ++ [m])
                (log w) (dispatched w)).

(** [await response(scope, receive, send)]. *)
Definition respond (r : Response) (send : Send) : M unit :=
  send (ResponseStart (resp_status r) (raw_headers r)) ;;
  send (ResponseBody (body r)).

(* ------------------------------------------------------------------------- *)
(** ** [security.py]: the Security Gate, the logger and the rate-limit handler *)

Record SecurityMiddleware_self : Type := mkSecurity {
  allowed_hosts : list string;
  max_request_size : Z;
}.

(** [SecurityMiddleware.__init__]: [allowed_hosts or ["*"]], and the default
    of [max_request_size]. *)
Definition SecurityMiddleware_init (hosts : option (list string))
  (size : option Z) : SecurityMiddleware_self :=
  mkSecurity
    (match hosts with
     | Some (h :: t) => h :: t
     | _ => ["*"]
     end)
    (match size with
     | Some n => n
     | None => 10 * 1024 * 1024
     end).

Definition _validate_host (self : SecurityMiddleware_self) (scope : Scope)
  : bool :=
  if Py.list_in "*" (allowed_hosts self) then true
  else
    let host := Py.lower (headers_get_default scope "host" "") in
    Py.any (fun allowed_host => Py.str_in (Py.lower allowed_host) host)
      (allowed_hosts self).

(** [content_length and int(content_length) > self.max_request_size]; the
    conversion raises [ValueError] on a literal that is no integer (the
    exception is recorded with that literal). *)
Definition exceeds_max (self : SecurityMiddleware_self)
  (content_length : option string) : M bool :=
  match content_length with
  | None => ret false
  | Some cl =>
      if Py.truthy cl
      then match Py.int cl with
           | Some n => ret (max_request_size self <? n)
           | None => raise (ValueError cl)
           end
      else ret false
  end.

Definition security_headers (request_id : string) : list (string * string) :=
  [("x-content-type-options", "nosniff");
   ("x-frame-options", "DENY");
   ("x-xss-protection", "1; mode=block");
   ("referrer-policy", "strict-origin-when-cross-origin");
   ("content-security-policy", "default-src 'self'");
   ("x-request-id", request_id)].

(** The [send_wrapper] closure of [SecurityMiddleware.__call__]. *)
Definition security_send_wrapper (request_id : string) (send : Send) : Send :=
  fun message =>
    match message with
    | ResponseStart status headers =>
        let headers := Py.dict_of headers in
        let headers :=
          fold_left (fun h kv => Py.dict_set h (fst kv) (snd kv))
            (security_headers request_id) headers in
        send (ResponseStart status headers)
    | _ => send message
    end.

Definition SecurityMiddleware (self : SecurityMiddleware_self) (app : App)
  : App :=
  fun scope send =>
    if negb (scope_type scope =? "http")%string then app scope send
    else
      request_id <- uuid4 ;;
      set_request_id request_id ;;
      if negb (_validate_host self scope)
      then respond (JSONResponse 400
                      (VDict [("detail", VStr "Invalid host header")])) send
      else
        let content_length := headers_get scope "content-length" in
        too_large <- exceeds_max self content_length ;;
        if too_large
        then respond (JSONResponse 413
                        (VDict [("detail", VStr "Request too large")])) send
        else app scope (security_send_wrapper request_id send).

(** The [send_wrapper] closure of [RequestValidationMiddleware.__call__]. *)
Definition logging_send_wrapper (send : Send) : Send :=
  fun message =>
    match message with
    | ResponseStart status _ =>
        request_id <- get_request_id ;;
        emit "info" "Request completed"
          [("status_code", LVal (VInt status));
           ("process_time", LElapsed);
           ("request_id", LVal (opt_str request_id))] ;;
        send message
    | _ => send message
    end.

Definition RequestValidationMiddleware (app : App) : App :=
  fun scope send =>
    if negb (scope_type scope =? "http")%string then app scope send
    else
      request_id <- get_request_id ;;
      emit "info" "Incoming request"
        [("method", LVal (VStr (scope_method scope)));
         ("url", LVal (VStr (scope_url scope)));
         ("user_agent", LVal (opt_str (headers_get scope "user-agent")));
         ("request_id", LVal (opt_str request_id))] ;;
      app scope (logging_send_wrapper send).

(** Modelled from the spec: [slowapi.util.get_remote_address] is third-party
    code; the spec has the limiter "keyed by client network address".  The
    model is the address of the peer, or the loopback address when the
    server reports no peer. *)
Definition get_remote_address (scope : Scope) : string :=
  match scope_client scope with
  | Some host => host
  | None => "127.0.0.1"
  end.

(** [exc.retry_after]: an [AttributeError] when the exception has no such
    attribute. *)
Definition attr_retry_after (exc : exception) : M value :=
  match exc with
  | RateLimitExceeded (Some retry_after) => ret retry_after
  | _ => raise (AttributeError "retry_after")
  end.

Definition rate_limit_handler (scope : Scope) (exc : exception) : M Response :=
  request_id <- get_request_id ;;
  emit "warning" "Rate limit exceeded"
    [("client_ip", LVal (VStr (get_remote_address scope)));
     ("request_id", LVal (opt_str request_id))] ;;
  retry_after <- attr_retry_after exc ;;
  ret (JSONResponse 429
         (VDict [("detail", VStr "Rate limit exceeded. Please try again later.");
                 ("retry_after", retry_after)])).

(* ------------------------------------------------------------------------- *)
(** ** [error_handler.py]: the Error Classifier *)

Definition loc_str (x : LocItem) : string :=
  match x with
  | LocStr s => s
  | LocInt z => Py.str_of_int z
  end.

(** The dictionary appended for one failure. *)
Definition field_error (error : ErrorDict) : value :=
  VDict [("field", VStr (Py.join "." (map loc_str (err_loc error))));
         ("message", VStr (err_msg error));
         ("type", VStr (err_type error))].

(** [errors = []; for error in exc.errors(): errors.append({...})]. *)
Definition collect_errors (exc_errors : list ErrorDict) : list value :=
  fold_left (fun errors error => errors ++ [field_error error])%list
    exc_errors [].

Definition _handle_http_exception (scope : Scope) (status : Z) (detail : value)
  (request_id : option string) : M Response :=
  emit "warning" "HTTP exception occurred"
    [("status_code", LVal (VInt status));
     ("detail", LVal detail);
     ("request_id", LVal (opt_str request_id));
     ("path", LVal (VStr (scope_path scope)));
     ("method", LVal (VStr (scope_method scope)))] ;;
  ret (JSONResponse status
         (VDict [("error", VStr "HTTP_EXCEPTION");
                 ("detail", detail);
                 ("request_id", opt_str request_id)])).

Definition _handle_validation_error (scope : Scope)
  (exc_errors : list ErrorDict) (request_id : option string) : M Response :=
  let errors := collect_errors exc_errors in
  emit "warning" "Request validation error"
    [("errors", LVal (VList errors));
     ("request_id", LVal (opt_str request_id));
     ("path", LVal (VStr (scope_path scope)));
     ("method", LVal (VStr (scope_method scope)))] ;;
  ret (JSONResponse 422
         (VDict [("error", VStr "VALIDATION_ERROR");
                 ("detail", VStr "Request validation failed");
                 ("errors", VList errors);
                 ("request_id", opt_str request_id)])).

Definition _handle_pydantic_validation_error (scope : Scope)
  (exc_errors : list ErrorDict) (request_id : option string) : M Response :=
  let errors := collect_errors exc_errors in
  emit "warning" "Pydantic validation error"
    [("errors", LVal (VList errors));
     ("request_id", LVal (opt_str request_id));
     ("path", LVal (VStr (scope_path scope)));
     ("method", LVal (VStr (scope_method scope)))] ;;
  ret (JSONResponse 422
         (VDict [("error", VStr "VALIDATION_ERROR");
                 ("detail", VStr "Data validation failed");
                 ("errors", VList errors);
                 ("request_id", opt_str request_id)])).

Definition _handle_internal_error (scope : Scope) (exc : exception)
  (request_id : option string) : M Response :=
  emit "error" "Internal server error"
    [("error_type", LTypeName exc);
     ("error_message", LMessage exc);
     ("traceback", LTraceback exc);
     ("request_id", LVal (opt_str request_id));
     ("path", LVal (VStr (scope_path scope)));
     ("method", LVal (VStr (scope_method scope)))] ;;
  ret (JSONResponse 500
         (VDict [("error", VStr "INTERNAL_SERVER_ERROR");
                 ("detail", VStr "An internal server error occurred");
                 ("request_id", opt_str request_id)])).

Definition _handle_exception (scope : Scope) (exc : exception) : M Response :=
  request_id <- get_request_id ;;
  match exc with
  | HTTPException status detail =>
      _handle_http_exception scope status detail request_id
  | RequestValidationError errors =>
      _handle_validation_error scope errors request_id
  | ValidationError errors =>
      _handle_pydantic_validation_error scope errors request_id
  | _ => _handle_internal_error scope exc request_id
  end.

Definition ErrorHandlerMiddleware (app : App) : App :=
  fun scope send =>
    if negb (scope_type scope =? "http")%string then app scope send
    else
      try_except (app scope send)
        (fun exc =>
           response <- _handle_exception scope exc ;;
           respond response send).

(** The handlers for the domain exceptions, defined at module level. *)

Definition business_logic_error_handler (scope : Scope) (exc : exception)
  : M Response :=
  request_id <- get_request_id ;;
  match exc with
  | BusinessLogicError message error_code =>
      emit "warning" "Business logic error"
        [("error_code", LVal (opt_str error_code));
         ("message", LVal (VStr message));
         ("request_id", LVal (opt_str request_id))] ;;
      ret (JSONResponse 400
             (VDict [("error", VStr "BUSINESS_LOGIC_ERROR");
                     ("error_code", opt_str error_code);
                     ("detail", VStr message);
                     ("request_id", opt_str request_id)]))
  | _ => raise (AttributeError "error_code")
  end.

Definition database_error_handler (scope : Scope) (exc : exception)
  : M Response :=
  request_id <- get_request_id ;;
  match exc with
  | DatabaseError message operation =>
      emit "error" "Database error"
        [("operation", LVal (opt_str operation));
         ("message", LVal (VStr message));
         ("request_id", LVal (opt_str request_id))] ;;
      ret (JSONResponse 500
             (VDict [("error", VStr "DATABASE_ERROR");
                     ("detail", VStr "A database error occurred");
                     ("request_id", opt_str request_id)]))
  | _ => raise (AttributeError "operation")
  end.

Definition external_service_error_handler (scope : Scope) (exc : exception)
  : M Response :=
  request_id <- get_request_id ;;
  match exc with
  | ExternalServiceError message service status =>
      emit "error" "External service error"
        [("service", LVal (opt_str service));
         ("status_code",
          LVal (match status with Some n => VInt n | None => VNone end));
         ("message", LVal (VStr message));
         ("request_id", LVal (opt_str request_id))] ;;
      ret (JSONResponse 502
             (VDict [("error", VStr "EXTERNAL_SERVICE_ERROR");
                     ("detail",
                      VStr ("External service ("
                            ++ match service with
                               | Some s => s
                               | None => "None"
                               end
                            ++ ") is unavailable"));
                     ("request_id", opt_str request_id)]))
  | _ => raise (AttributeError "service")
  end.

(* ------------------------------------------------------------------------- *)
(** ** [app.py]: the assembled application *)

Definition Handler : Type := Scope -> exception -> M Response.

Record FastAPI : Type := mkApp {
  user_middleware : list (App -> App);
  exception_handlers : list (ExcClass * Handler);
}.

Definition FastAPI_new : FastAPI := mkApp [] [].

(** [add_middleware] puts the new middleware in front of the ones added
    before: the middleware added last is the outermost. *)
Definition add_middleware (app : FastAPI) (m : App -> App) : FastAPI :=
  mkApp (m :: user_middleware app) (exception_handlers app).

Definition add_exception_handler (app : FastAPI) (cls : ExcClass)
  (handler : Handler) : FastAPI :=
  mkApp (user_middleware app) ((cls, handler) :: exception_handlers app).

Fixpoint lookup_handler (handlers : list (ExcClass * Handler))
  (exc : exception) : option Handler :=
  match handlers with
  | [] => None
  | (cls, h) :: rest =>
      if isinstance exc cls then Some h else lookup_handler rest exc
  end.

(** The handlers the framework installs on its own account, for its HTTP
    exception and for a request that fails schema validation.  They are not
    code of the repository; they are modelled as the framework documents
    them: the HTTP exception is answered with its status and its detail
    under [detail] (with an empty response where the status allows no
    body), the validation error with status 422 and the reported failures
    under [detail].  The limiter's exception derives from the framework's
    HTTP exception, but [app.py] registers a handler for its own class,
    which is found first: it does not come to these handlers. *)
Inductive Reply : Type :=
| JsonReply (r : Response)
| EmptyReply (status : Z).

Definition is_body_allowed_for_status_code (status : Z) : bool :=
  negb ((status <? 200) || (status =? 204) || (status =? 205)
        || (status =? 304)).

Definition loc_value (x : LocItem) : value :=
  match x with
  | LocStr s => VStr s
  | LocInt z => VInt z
  end.

Definition reported_error (error : ErrorDict) : value :=
  VDict [("loc", VList (map loc_value (err_loc error)));
         ("msg", VStr (err_msg error));
         ("type", VStr (err_type error))].

Definition request_validation_exception_handler
  (exc_errors : list ErrorDict) : Response :=
  JSONResponse 422
    (VDict [("detail", VList (map reported_error exc_errors))]).

Definition http_exception_handler (status : Z) (detail : value) : Reply :=
  if is_body_allowed_for_status_code status
  then JsonReply (JSONResponse status (VDict [("detail", detail)]))
  else EmptyReply status.

Definition framework_handler (exc : exception) : option Reply :=
  match exc with
  | HTTPException status detail => Some (http_exception_handler status detail)
  | RequestValidationError errors =>
      Some (JsonReply (request_validation_exception_handler errors))
  | _ => None
  end.

Definition send_reply (reply : Reply) (send : Send) : M unit :=
  match reply with
  | JsonReply r => respond r send
  | EmptyReply status =>
      send (ResponseStart status
              (if status =? 205 then [("content-length", "0")] else [])) ;;
      send (ResponseBody "")
  end.

(** The framework's exception middleware, the innermost layer around route
    dispatch.  An exception for which the application has registered a
    handler is turned into that handler's response; failing that, the
    framework's own handler answers; any other exception is raised again.
    [handlers] is the table of the handlers [app.py] registers. *)
Definition ExceptionMiddleware (handlers : list (ExcClass * Handler))
  (app : App) : App :=
  fun scope send =>
    try_except (app scope send)
      (fun exc =>
         match lookup_handler handlers exc with
         | Some handler =>
             response <- handler scope exc ;;
             respond response send
         | None =>
             match framework_handler exc with
             | Some reply => send_reply reply send
             | None => raise exc
             end
         end).

(** What the route the request is dispatched to does: it answers with one
    start message and one body message, or it raises before it has sent
    anything.  A route that raises after the start of its response is not
    among them. *)
Inductive Endpoint : Type :=
| Replies (status : Z) (headers : list (string * string)) (body : string)
| Fails (exc : exception).

Definition enter_dispatch : M unit :=
  fun w => (Returned tt,
            mkWorld (state_request_id w) (uuid_next w) (wire w) (log w)
              (S (dispatched w))).

Definition router (endpoint : Endpoint) : App :=
  fun scope send =>
    enter_dispatch ;;
    match endpoint with
    | Replies status headers body =>
        send (ResponseStart status headers) ;;
        send (ResponseBody body)
    | Fails exc => raise exc
    end.

(** The stack: [user_middleware] from the outside in, then the exception
    middleware, then route dispatch. *)
Definition build_middleware_stack (app : FastAPI) (routes : App) : App :=
  fold_right (fun m inner => m inner)
    (ExceptionMiddleware (exception_handlers app) routes)
    (user_middleware app).

(** The registrations of [app.py], in its order.  [ALLOWED_HOSTS] is
    [settings.ALLOWED_HOSTS].  The CORS middleware registered afterwards
    wraps this stack from outside and runs no code of the repository; [wire]
    is what the stack hands to it. *)
Definition app (ALLOWED_HOSTS : list string) : FastAPI :=
  let app := FastAPI_new in
  let app :=
    add_middleware app
      (SecurityMiddleware (SecurityMiddleware_init (Some ALLOWED_HOSTS) None)) in
  let app := add_middleware app RequestValidationMiddleware in
  let app := add_middleware app ErrorHandlerMiddleware in
  let app := add_exception_handler app CRateLimitExceeded rate_limit_handler in
  app.

Definition serve (ALLOWED_HOSTS : list string) (endpoint : Endpoint)
  (scope : Scope) : M unit :=
  build_middleware_stack (app ALLOWED_HOSTS) (router endpoint) scope
    server_send.

(** The world at the arrival of a request whose identifier will be [uuid]. *)
Definition arrival (uuid : string) : World := mkWorld None uuid [] [] 0.

Definition http_get (headers : list (string * string)) : Scope :=
  mkScope "http" "GET" "http://gateway/api/v1/alerts" "/api/v1/alerts"
    (Some "10.0.0.7") headers.


(* ------------------------------------------------------------------------- *)
(** ** [config/production.py]: the validator of [CORS_ORIGINS] *)

(** [s.split(sep)] for a separator of one character: every occurrence
    splits, empty pieces are kept, and the empty string gives one empty
    piece. *)
Fixpoint str_split (sep : ascii) (s : string) : list string :=
  match s with
  | EmptyString => [EmptyString]
  | String c r =>
      if Ascii.eqb c sep then EmptyString :: str_split sep r
      else match str_split sep r with
           | piece :: pieces => String c piece :: pieces
           | [] => [String c EmptyString]
           end
  end.

(** [s.strip()]. *)
Definition str_strip (s : string) : string :=
  string_of_list_ascii (Py.strip (list_ascii_of_string s)).

(** [ProductionSettings.assemble_cors_origins]; [None] stands for the
    [ValueError] raised on a value that is neither a string nor a list. *)
Definition assemble_cors_origins (v : value) : option value :=
  match v with
  | VStr s =>
      if negb (String.prefix "[" s)
      then Some (VList (map (fun i => VStr (str_strip i)) (str_split "," s)))
      else Some v
  | VList _ => Some v
  | _ => None
  end.

(* ------------------------------------------------------------------------- *)
(** ** [utils/enhanced_logger.py]: the JSON formatter *)

(** What [JSONFormatter.format] reads of a [logging.LogRecord]; the three
    optional attributes are [None] when [hasattr] is false.  [rec_message]
    is [record.getMessage()]. *)
Record PyLogRecord : Type := mkRecord {
  rec_levelname : string;
  rec_name : string;
  rec_message : string;
  rec_module : string;
  rec_funcName : string;
  rec_lineno : Z;
  rec_request_id : option value;
  rec_user_id : option value;
  rec_extra_data : option (list (string * value));
}.

(** [d.update(other)]. *)
Definition dict_update {V} (d other : list (string * V)) : list (string * V) :=
  fold_left (fun acc kv => Py.dict_set acc (fst kv) (snd kv)) other d.

(** The dictionary [log_data] that [format] builds; [timestamp] is
    [datetime.utcnow().isoformat()]. *)
Definition log_data (timestamp : string) (record : PyLogRecord)
  : list (string * value) :=
  let log_data :=
    [("timestamp", VStr timestamp);
     ("level", VStr (rec_levelname record));
     ("logger", VStr (rec_name record));
     ("message", VStr (rec_message record));
     ("module", VStr (rec_module record));
     ("function", VStr (rec_funcName record));
     ("line", VInt (rec_lineno record))] in
  let log_data :=
    match rec_request_id record with
    | Some request_id => Py.dict_set log_data "request_id" request_id
    | None => log_data
    end in
  let log_data :=
    match rec_user_id record with
    | Some user_id => Py.dict_set log_data "user_id" user_id
    | None => log_data
    end in
  match rec_extra_data record with
  | Some extra_data => dict_update log_data extra_data
  | None => log_data
  end.

Module PyJson.

(** [json.dumps(obj, default=str)] with the defaults of the standard
    library: items separated by a comma and a space, keys by a colon and a
    space, and every character outside printable ASCII escaped.  The
    [default] hook is for objects that are no JSON values; [value] has
    none. *)
Definition escape (c : ascii) : string :=
  let n := Py.code c in
  if (n =? 34)%nat then Json.two Json.backslash Json.dquote
  else if (n =? 92)%nat then Json.two Json.backslash Json.backslash
  else if (n =? 8)%nat then Json.two Json.backslash "b"
  else if (n =? 12)%nat then Json.two Json.backslash "f"
  else if (n =? 10)%nat then Json.two Json.backslash "n"
  else if (n =? 13)%nat then Json.two Json.backslash "r"
  else if (n =? 9)%nat then Json.two Json.backslash "t"
  else if ((n <? 32) || (126 <? n))%nat
       then Json.two Json.backslash "u" ++ "00"
            ++ Json.two (Json.hex (n / 16)) (Json.hex (n mod 16))
  else String c "".

Fixpoint quote_body (s : string) : string :=
  match s with
  | EmptyString => EmptyString
  | String c r => escape c ++ quote_body r
  end.

Definition quote (s : string) : string :=
  String Json.dquote (quote_body s) ++ String Json.dquote "".

Fixpoint dumps (v : value) : string :=
  match v with
  | VNone => "null"
  | VBool true => "true"
  | VBool false => "false"
  | VInt z => Py.str_of_int z
  | VStr s => quote s
  | VList l => "[" ++ Py.join ", " (map dumps l) ++ "]"
  | VDict items =>
      "{" ++ Py.join ", "
               (map (fun kv => quote (fst kv) ++ ": " ++ dumps (snd kv)) items)
          ++ "}"
  end.

End PyJson.

(** [JSONFormatter.format]. *)
Definition JSONFormatter_format (timestamp : string) (record : PyLogRecord)
  : string :=
  PyJson.dumps (VDict (log_data timestamp record)).

(* ------------------------------------------------------------------------- *)
(** ** Vocabulary of the statements *)

(** The character [c] does not occur in [s]. *)
Definition free_of (c : ascii) (s : string) : Prop :=
  ~ In c (list_ascii_of_string s).

(** [sub] occurs in [s] as a contiguous run of characters. *)
Definition is_substring (sub s : string) : Prop :=
  exists pre post, s = pre ++ sub ++ post.

(** The gate of the assembled application. *)
Definition gate (ALLOWED_HOSTS : list string) : SecurityMiddleware_self :=
  SecurityMiddleware_init (Some ALLOWED_HOSTS) None.

(** The world after the gate has drawn the identifier and stored it in the
    request state. *)
Definition stamp (w : World) : World :=
  mkWorld (Some (uuid_next w)) (uuid_next w) (wire w) (log w) (dispatched w).

(** The messages of a JSON response when nothing rewrites them. *)
Definition sent (r : Response) : list message :=
  [ResponseStart (resp_status r) (raw_headers r); ResponseBody (body r)].

(** The size check lets the request through. *)
Definition size_ok (self : SecurityMiddleware_self) (scope : Scope) : Prop :=
  exceeds_max self (headers_get scope "content-length") = ret false.

(** The world after the logger has recorded the arrival of the request. *)
Definition incoming (scope : Scope) (w : World) : World :=
  mkWorld (state_request_id w) (uuid_next w) (wire w)
    (log w ++
     [mkLog "info" "Incoming request"
        [("method", LVal (VStr (scope_method scope)));
         ("url", LVal (VStr (scope_url scope)));
         ("user_agent", LVal (opt_str (headers_get scope "user-agent")));
         ("request_id", LVal (opt_str (state_request_id w)))]])
    (dispatched w).

(** The host the request declares, lower-cased; empty when there is none. *)
Definition declared_host (scope : Scope) : string :=
  Py.lower (headers_get_default scope "host" "").

(** The acceptance rule in the words of the spec: the lower-cased declared
    host contains an allow-listed entry as a substring. *)
Definition host_contains_entry (self : SecurityMiddleware_self)
  (scope : Scope) : Prop :=
  exists entry,
    In entry (allowed_hosts self) /\ is_substring entry (declared_host scope).

(** A field of a JSON object. *)
Definition content_get (content : value) (key : string) : option value :=
  match content with
  | VDict items => Py.dict_get items key
  | _ => None
  end.

(** The wrapper of the gate puts the six headers on a response start. *)
Definition with_security_headers (request_id : string)
  (headers : list (string * string)) : list (string * string) :=
  fold_left (fun h kv => Py.dict_set h (fst kv) (snd kv))
    (security_headers request_id) (Py.dict_of headers).



(** What the gate does with an HTTP request, read off the two checks of
    [SecurityMiddleware.__call__] in their order. *)
Inductive Verdict : Type :=
| BadHost
| TooLarge
| BadLength (content_length : string)
| Pass.

Definition gate_verdict (self : SecurityMiddleware_self) (scope : Scope)
  : Verdict :=
  if negb (_validate_host self scope) then BadHost
  else
    match headers_get scope "content-length" with
    | None => Pass
    | Some cl =>
        if Py.truthy cl
        then match Py.int cl with
             | Some n => if max_request_size self <? n then TooLarge else Pass
             | None => BadLength cl
             end
        else Pass
    end.

(** The stack of [app.py] with the registration of
    [RequestValidationMiddleware] taken out. *)
Definition serve_without_logger (ALLOWED_HOSTS : list string)
  (endpoint : Endpoint) (scope : Scope) : M unit :=
  ErrorHandlerMiddleware
    (SecurityMiddleware (gate ALLOWED_HOSTS)
       (ExceptionMiddleware (exception_handlers (app ALLOWED_HOSTS))
          (router endpoint)))
    scope server_send.

(** The record the logger writes when a request comes in. *)
Definition incoming_record (scope : Scope) (w : World) : LogRecord :=
  mkLog "info" "Incoming request"
    [("method", LVal (VStr (scope_method scope)));
     ("url", LVal (VStr (scope_url scope)));
     ("user_agent", LVal (opt_str (headers_get scope "user-agent")));
     ("request_id", LVal (opt_str (state_request_id w)))].

Definition is_completion (r : LogRecord) : bool :=
  (log_event r =? "Request completed")%string.

(** The response is built by the Error Classifier: the gate raised, or the
    route raised an exception that no handler turned into a response (no
    handler is there for it, or the rate-limit handler itself raised for
    want of [retry_after]). *)
Definition answered_by_classifier (self : SecurityMiddleware_self)
  (endpoint : Endpoint) (scope : Scope) : bool :=
  match gate_verdict self scope with
  | BadLength _ => true
  | Pass =>
      match endpoint with
      | Fails (RateLimitExceeded (Some _)) => false
      | Fails exc =>
          match framework_handler exc with
          | Some _ => false
          | None => true
          end
      | Replies _ _ _ => false
      end
  | _ => false
  end.

(** The route raises an exception for which the framework installs a
    handler of its own ([framework_handler]): it is answered inside the
    exception middleware and leaves it no more. *)
Definition framework_handled (endpoint : Endpoint) : bool :=
  match endpoint with
  | Fails (HTTPException _ _) | Fails (RequestValidationError _) => true
  | _ => false
  end.

(** [P] holds of every string the sanitizer reaches from the value of a
    mapping entry: the value itself, the values of nested mappings, and the
    string and mapping elements of a list value.  Lists inside lists are not
    reached. *)
Fixpoint reached_all (P : string -> bool) (v : value) : bool :=
  match v with
  | VStr s => P s
  | VDict items =>
      forallb (fun kv => let '(_, x) := kv in reached_all P x) items
  | VList l =>
      forallb (fun item =>
                 match item with
                 | VStr s => P s
                 | VDict items =>
                     forallb (fun kv => let '(_, x) := kv in reached_all P x)
                       items
                 | _ => true
                 end) l
  | _ => true
  end.

Fixpoint distinct (keys : list string) : bool :=
  match keys with
  | [] => true
  | k :: rest => negb (Py.list_in k rest) && distinct rest
  end.

(** The mappings reached from an entry value have distinct keys, as every
    dictionary has. *)
Fixpoint keys_distinct (v : value) : bool :=
  match v with
  | VDict items =>
      distinct (map fst items)
      && forallb (fun kv => let '(_, x) := kv in keys_distinct x) items
  | VList l =>
      forallb (fun item =>
                 match item with
                 | VDict items =>
                     distinct (map fst items)
                     && forallb (fun kv => let '(_, x) := kv in
                                           keys_distinct x) items
                 | _ => true
                 end) l
  | _ => true
  end.

Definition tag_free (s : string) : bool := negb (Py.str_in "<" s).

(** The number of occurrences of a character. *)
Fixpoint count_char (c : ascii) (s : string) : nat :=
  match s with
  | EmptyString => 0
  | String d r => (if Ascii.eqb d c then 1 else 0) + count_char c r
  end.

(** The list does not begin with white space. *)
Definition no_lead (l : list ascii) : Prop :=
  match l with
  | c :: _ => Py.is_space c = false
  | [] => True
  end.

(* ------------------------------------------------------------------------- *)
(** * Properties *)

Example str_of_int_ex : Py.str_of_int 0 = "0" /\ Py.str_of_int (-12) = "-12".
Proof. split; reflexivity. Qed.

Example int_ex :
  Py.int " 1_000 " = Some 1000 /\ Py.int "+7" = Some 7 /\ Py.int "abc" = None
  /\ Py.int "1__0" = None /\ Py.int "" = None /\ Py.int "-0012" = Some (-12).
Proof. repeat split; reflexivity. Qed.

(** Literals the conversion refuses although a strip of white space and a
    reading of the digits would give a number: one that ends in the
    separator U+001F, which [str.strip] removes and [int] does not, and
    those of more than 4300 digits, leading zeros counted.  A literal of
    4300 digits is read, and so is one between no-break spaces. *)
Example int_refused_literals :
  let unit_separator := String (ascii_of_nat 31) "" in
  let no_break_space := String (ascii_of_nat 160) "" in
  Py.strip (list_ascii_of_string ("12" ++ unit_separator)) = ["1"; "2"]%char
  /\ Py.int ("12" ++ unit_separator) = None
  /\ Py.int (String.concat "" (repeat "9" 4301)) = None
  /\ Py.int (String.concat "" (repeat "0" 5000)) = None
  /\ Py.int (String.concat "" (repeat "0" 4299) ++ "7") = Some 7
  /\ Py.int (no_break_space ++ "12" ++ no_break_space) = Some 12
  /\ gate_verdict (gate ["*"])
       (http_get [("content-length", "12" ++ unit_separator)])
     = BadLength ("12" ++ unit_separator).
Proof. cbv zeta. repeat split; vm_compute; reflexivity. Qed.

(* ------------------------------------------------------------------------- *)
(** ** Dictionaries: assignment in a loop *)

Section dict_facts.
Context {V : Type}.
Implicit Types (d acc l : list (string * V)) (k : string) (v : V).

Let step := fun d (kv : string * V) => Py.dict_set d (fst kv) (snd kv).

Lemma dict_set_fresh d k v :
  ~ In k (Py.keys d) -> Py.dict_set d k v = (d ++ [(k, v)])%list.
Proof.
  induction d as [|[k' v'] d IH]; simpl; intros Hk; [reflexivity|].
  destruct (String.eqb_spec k k') as [->|_]; [tauto|].
  rewrite IH; [reflexivity|tauto].
Qed.

Lemma dict_set_keys_present d k v :
  In k (Py.keys d) -> Py.keys (Py.dict_set d k v) = Py.keys d.
Proof.
  induction d as [|[k' v'] d IH]; simpl; intros Hk; [tauto|].
  destruct (String.eqb_spec k k') as [->|Hne]; simpl; [reflexivity|].
  destruct Hk as [->|Hk]; [congruence|]. now rewrite IH.
Qed.

Lemma dict_set_nodup d k v :
  NoDup (Py.keys d) -> NoDup (Py.keys (Py.dict_set d k v)).
Proof.
  intros Hd. destruct (in_dec string_dec k (Py.keys d)) as [Hin|Hout].
  - now rewrite dict_set_keys_present.
  - rewrite dict_set_fresh by assumption. unfold Py.keys.
    rewrite map_app. simpl. apply NoDup_app; auto.
    + constructor; [simpl; tauto | constructor].
    + intros x Hx [<-|[]]. exact (Hout Hx).
Qed.

Lemma dict_set_Forall (Q : string * V -> Prop) d k v :
  Forall Q d -> Q (k, v) -> Forall Q (Py.dict_set d k v).
Proof.
  induction 1 as [|[k' v'] d Hx Hd IH]; simpl; intros Hq.
  - repeat constructor; assumption.
  - destruct (String.eqb k k'); constructor; auto.
Qed.

Lemma fold_set_nodup l : forall acc,
  NoDup (Py.keys acc) -> NoDup (Py.keys (fold_left step l acc)).
Proof.
  induction l as [|kv l IH]; simpl; intros acc Hacc; [assumption|].
  apply IH. now apply dict_set_nodup.
Qed.

Lemma fold_set_Forall (Q : string * V -> Prop) l : forall acc,
  Forall Q acc -> Forall Q l -> Forall Q (fold_left step l acc).
Proof.
  induction l as [|[k v] l IH]; simpl; intros acc Hacc Hl; [assumption|].
  inversion Hl; subst. apply IH; [|assumption].
  now apply dict_set_Forall.
Qed.

Lemma fold_set_distinct l : forall acc,
  NoDup (Py.keys (acc ++ l)%list) -> fold_left step l acc = (acc ++ l)%list.
Proof.
  induction l as [|[k v] l IH]; simpl; intros acc Hnd.
  - now rewrite app_nil_r.
  - unfold step at 2. simpl. rewrite dict_set_fresh.
    + rewrite IH; rewrite <- app_assoc; [reflexivity | exact Hnd].
    + unfold Py.keys in Hnd. rewrite map_app in Hnd. simpl in Hnd.
      apply NoDup_remove_2 in Hnd. intros Hin. apply Hnd.
      apply in_or_app. now left.
Qed.

(** Building a dictionary from pairs with distinct keys keeps the pairs. *)
Lemma dict_of_distinct l : NoDup (Py.keys l) -> Py.dict_of l = l.
Proof. intros Hl. apply (fold_set_distinct l []). exact Hl. Qed.

Lemma dict_of_nodup l : NoDup (Py.keys (Py.dict_of l)).
Proof. apply fold_set_nodup. constructor. Qed.

Lemma dict_of_idem l : Py.dict_of (Py.dict_of l) = Py.dict_of l.
Proof. apply dict_of_distinct, dict_of_nodup. Qed.

Lemma dict_of_Forall (Q : string * V -> Prop) l :
  Forall Q l -> Forall Q (Py.dict_of l).
Proof. intros Hl. apply fold_set_Forall; [constructor | assumption]. Qed.

End dict_facts.

(* ------------------------------------------------------------------------- *)
(** ** The sanitizer: shape of the result and idempotence *)

Section sanitizer_facts.
Variable clean : string -> string.

(** The loop of [validate_json_input], one assignment per item. *)
Lemma validate_json_input_dict items :
  validate_json_input clean (VDict items)
  = VDict (Py.dict_of (map (on_value (sanitize_entry clean)) items)).
Proof.
  unfold Py.dict_of. simpl. f_equal. generalize (@nil (string * value)).
  induction items as [|[k v] items IH]; intros acc; simpl; [reflexivity|].
  rewrite <- IH. f_equal. destruct v; reflexivity.
Qed.

Hypothesis clean_idem : forall s, clean (clean s) = clean s.

Let idem (f : value -> value) (v : value) : Prop := f (f v) = f v.

Lemma map_fixed {A} (f : A -> A) (l : list A) :
  Forall (fun x => f x = x) l -> map f l = l.
Proof. induction 1; simpl; congruence. Qed.

Lemma sanitizer_idem_all v :
  idem (validate_json_input clean) v
  /\ idem (sanitize_item clean) v
  /\ idem (sanitize_entry clean) v.
Proof.
  unfold idem.
  induction v as [ | b | z | s | l IH | items IH ] using value_deep_ind;
    try (repeat split; reflexivity).
  - repeat split; simpl; now rewrite ?clean_idem.
  - repeat split; try reflexivity. simpl. f_equal.
    rewrite map_map. apply map_ext_Forall.
    eapply Forall_impl; [|exact IH]. simpl. intros x Hx. apply Hx.
  - assert (Hv : validate_json_input clean
                   (validate_json_input clean (VDict items))
                 = validate_json_input clean (VDict items)).
    { rewrite (validate_json_input_dict items).
      rewrite validate_json_input_dict. f_equal.
      rewrite map_fixed; [apply dict_of_idem|].
      apply dict_of_Forall. apply Forall_map.
      eapply Forall_impl; [|exact IH]. intros [k v] Hk. simpl in *.
      unfold on_value. simpl. f_equal. apply Hk. }
    repeat split; exact Hv.
Qed.

End sanitizer_facts.

(** The scanner of the tag stripper. *)

Lemma scan_free_of_lt s : forall b, free_of "<" (Bleach.scan b s).
Proof.
  unfold free_of.
  induction s as [|c s IH]; intros b; simpl; [tauto|].
  destruct b.
  - destruct (Ascii.eqb c ">"); apply IH.
  - destruct (Ascii.eqb_spec c "<") as [->|Hne]; [apply IH|].
    simpl. intros [E|Hin]; [congruence|]. exact (IH false Hin).
Qed.

Lemma scan_text s : free_of "<" s -> Bleach.scan false s = s.
Proof.
  unfold free_of.
  induction s as [|c s IH]; simpl; intros Hs; [reflexivity|].
  destruct (Ascii.eqb_spec c "<") as [->|Hne]; [tauto|].
  rewrite IH; tauto.
Qed.

Lemma scan_text_app a b :
  free_of "<" a -> Bleach.scan false (a ++ b) = a ++ Bleach.scan false b.
Proof.
  unfold free_of.
  induction a as [|c a IH]; simpl; intros Ha; [reflexivity|].
  destruct (Ascii.eqb_spec c "<") as [->|Hne]; [tauto|].
  rewrite IH; tauto.
Qed.

Lemma scan_tag_app t b :
  free_of ">" t ->
  Bleach.scan true (t ++ String ">" b) = Bleach.scan false b.
Proof.
  unfold free_of.
  induction t as [|c t IH]; simpl; intros Ht; [reflexivity|].
  destruct (Ascii.eqb_spec c ">") as [->|Hne]; [tauto|].
  apply IH; tauto.
Qed.

Lemma clean_idem s : Bleach.clean (Bleach.clean s) = Bleach.clean s.
Proof. apply scan_text, scan_free_of_lt. Qed.


(* ------------------------------------------------------------------------- *)
(** ** Substrings *)

Lemma prefix_spec sub s :
  String.prefix sub s = true <-> exists post, s = sub ++ post.
Proof.
  revert s. induction sub as [|c sub IH]; intros s; simpl.
  - split; [intros _; now exists s | intros _; now destruct s].
  - destruct s as [|d s].
    + split; [discriminate | intros [post H]; discriminate].
    + simpl. destruct (ascii_dec c d) as [->|Hne].
      * rewrite IH. split; intros [post H]; exists post; congruence.
      * split; [discriminate | intros [post H]; congruence].
Qed.

Lemma str_in_spec sub s : Py.str_in sub s = true <-> is_substring sub s.
Proof.
  unfold is_substring. induction s as [|c s IH].
  - cbn [Py.str_in]. rewrite prefix_spec. split.
    + intros [post H]. now exists "", post.
    + intros [[|d pre] [post H]]; [now exists post | discriminate].
  - cbn [Py.str_in]. rewrite orb_true_iff, IH, prefix_spec. split.
    + intros [[post H]|[pre [post H]]].
      * now exists "", post.
      * exists (String c pre), post. simpl. now rewrite H.
    + intros [[|d pre] [post H]].
      * left. now exists post.
      * right. exists pre, post. simpl in H. congruence.
Qed.

(* ------------------------------------------------------------------------- *)
(** ** The sanitizer *)

(** C8, the example as the spec has it: the spec expects
    ["<script>alert(1)</script>hello"] to be sanitized to ["hello"]; the
    stripper removes the two tags and keeps the text between them. *)
Lemma sanitize_script_example_refuted :
  sanitize_input Bleach.clean (VStr "<script>alert(1)</script>hello")
  <> VStr "hello".
Proof. vm_compute. discriminate. Qed.

(** C8, amended: on a string the sanitizer drops every tag and keeps all text
    outside tags, so ["<script>alert(1)</script>hello"] becomes
    ["alert(1)hello"]; on a mapping (with its keys distinct, as in any
    dictionary) every entry keeps its key and position, a string value is
    stripped, a mapping value is sanitized recursively, a list value is
    mapped element by element (strings stripped, mappings sanitized, other
    elements untouched), and any other value is passed through; a value that
    is no string is returned unchanged by [sanitize_input], a value that is
    no mapping by [validate_json_input]. *)
Theorem sanitize_strips_tags_and_recurses
  (text tag rest : string) (items : list (string * value)) (other : value)
  (Htext : free_of "<" text) (Htag : free_of ">" tag)
  (Hkeys : NoDup (Py.keys items))
  (Hother : match other with VStr _ | VDict _ | VList _ => False | _ => True end) :
  let clean := Bleach.clean in
  sanitize_input clean (VStr (text ++ String "<" tag ++ String ">" rest))
    = VStr (text ++ clean rest)
  /\ sanitize_input clean (VStr text) = VStr text
  /\ (forall s, exists s',
         sanitize_input clean (VStr s) = VStr s' /\ free_of "<" s')
  /\ sanitize_input clean (VStr "<script>alert(1)</script>hello")
     = VStr "alert(1)hello"
  /\ validate_json_input clean (VDict items)
     = VDict (map (on_value (sanitize_entry clean)) items)
  /\ (forall s, sanitize_entry clean (VStr s) = VStr (clean s))
  /\ (forall d, sanitize_entry clean (VDict d)
                = validate_json_input clean (VDict d))
  /\ (forall l, sanitize_entry clean (VList l)
                = VList (map (sanitize_item clean) l))
  /\ (forall s, sanitize_item clean (VStr s) = VStr (clean s))
  /\ (forall d, sanitize_item clean (VDict d)
                = validate_json_input clean (VDict d))
  /\ (forall l, sanitize_item clean (VList l) = VList l)
  /\ sanitize_entry clean other = other
  /\ sanitize_item clean other = other
  /\ sanitize_input clean other = other
  /\ validate_json_input clean other = other
  /\ sanitize_input clean (VList [other]) = VList [other]
  /\ validate_json_input clean (VList [other]) = VList [other]
  /\ validate_json_input clean
       (VDict [("a", VStr "<b>x</b>"); ("c", VDict [("d", VStr "<i>y</i>")])])
     = VDict [("a", VStr "x"); ("c", VDict [("d", VStr "y")])].
Proof.
  intros clean. subst clean.
  repeat match goal with |- _ /\ _ => split end;
    try reflexivity; try (destruct other; (reflexivity || contradiction)).
  - unfold sanitize_input, Bleach.clean. f_equal.
    rewrite scan_text_app by assumption. f_equal.
    cbn [Bleach.scan Ascii.eqb Bool.eqb]. cbn.
    now apply scan_tag_app.
  - unfold sanitize_input, Bleach.clean. f_equal. now apply scan_text.
  - intros s. exists (Bleach.clean s). split; [reflexivity|].
    apply scan_free_of_lt.
  - rewrite validate_json_input_dict. f_equal. apply dict_of_distinct.
    unfold Py.keys in *. rewrite map_map. exact Hkeys.
Qed.

Lemma sanitize_strips_tags_and_recurses_witness :
  sanitize_input Bleach.clean (VStr "a <b class=x>bold</b> c")
  = VStr ("a " ++ Bleach.clean "bold</b> c")
  /\ validate_json_input Bleach.clean
       (VDict [("k", VList [VStr "<i>y</i>"; VInt 3; VList [VStr "<i>z</i>"]]);
               ("n", VInt 7)])
     = VDict [("k", VList [VStr "y"; VInt 3; VList [VStr "<i>z</i>"]]);
              ("n", VInt 7)].
Proof.
  assert (Ha : free_of "<" "a ").
  { unfold free_of. simpl. intros [H|[H|[]]]; discriminate. }
  assert (Ht : free_of ">" "b class=x").
  { unfold free_of. simpl. intuition discriminate. }
  assert (Hk : NoDup (Py.keys
                        [("k", VList [VStr "<i>y</i>"; VInt 3;
                                      VList [VStr "<i>z</i>"]]);
                         ("n", VInt 7)])).
  { simpl. repeat constructor; simpl; intuition discriminate. }
  pose proof (sanitize_strips_tags_and_recurses
                "a " "b class=x" "bold</b> c" _ (VInt 7) Ha Ht Hk I) as H.
  cbv zeta in H. destruct H as (H1 & _ & _ & _ & H5 & _).
  split; [exact H1 | exact H5].
Defined.

(** C9: sanitizing is idempotent, on strings through [sanitize_input] and on
    arbitrarily nested values through [validate_json_input]. *)
Theorem sanitize_idempotent (v : value) :
  sanitize_input Bleach.clean (sanitize_input Bleach.clean v)
  = sanitize_input Bleach.clean v
  /\ validate_json_input Bleach.clean (validate_json_input Bleach.clean v)
     = validate_json_input Bleach.clean v.
Proof.
  split.
  - destruct v; try reflexivity. simpl. now rewrite clean_idem.
  - apply (sanitizer_idem_all Bleach.clean clean_idem v).
Qed.

(* ------------------------------------------------------------------------- *)
(** ** Running the stack *)

Lemma serve_stack hosts endpoint scope :
  serve hosts endpoint scope
  = ErrorHandlerMiddleware
      (RequestValidationMiddleware
         (SecurityMiddleware (gate hosts)
            (ExceptionMiddleware [(CRateLimitExceeded, rate_limit_handler)]
               (router endpoint))))
      scope server_send.
Proof. reflexivity. Qed.

Lemma list_in_spec x xs : Py.list_in x xs = true <-> In x xs.
Proof.
  unfold Py.list_in. rewrite existsb_exists. split.
  - intros [y [Hy E]]. apply String.eqb_eq in E. now subst.
  - intros H. exists x. split; [assumption | apply String.eqb_refl].
Qed.

Ltac http_branch H :=
  rewrite H; change (negb ("http" =? "http")%string) with false; cbv iota.

Lemma security_rejects_host self inner scope send w :
  scope_type scope = "http" ->
  _validate_host self scope = false ->
  SecurityMiddleware self inner scope send w
  = respond (JSONResponse 400 (VDict [("detail", VStr "Invalid host header")]))
      send (stamp w).
Proof.
  intros Hhttp Hhost. unfold SecurityMiddleware. http_branch Hhttp.
  unfold bind, uuid4, set_request_id. cbn [uuid_next].
  rewrite Hhost. reflexivity.
Qed.

Lemma int_nonempty cl n : Py.int cl = Some n -> Py.truthy cl = true.
Proof. destruct cl; [discriminate | reflexivity]. Qed.

Lemma security_rejects_size self inner scope send w cl n :
  scope_type scope = "http" ->
  _validate_host self scope = true ->
  headers_get scope "content-length" = Some cl ->
  Py.int cl = Some n ->
  max_request_size self < n ->
  SecurityMiddleware self inner scope send w
  = respond (JSONResponse 413 (VDict [("detail", VStr "Request too large")]))
      send (stamp w).
Proof.
  intros Hhttp Hhost Hcl Hint Hgt. unfold SecurityMiddleware.
  http_branch Hhttp. unfold bind at 1 2, uuid4, set_request_id.
  cbn [uuid_next]. rewrite Hhost, Hcl. cbn [negb].
  unfold bind, exceeds_max. rewrite (int_nonempty _ _ Hint), Hint.
  unfold ret. apply Z.ltb_lt in Hgt. rewrite Hgt. reflexivity.
Qed.

Lemma security_conversion_error self inner scope send w cl :
  scope_type scope = "http" ->
  _validate_host self scope = true ->
  headers_get scope "content-length" = Some cl ->
  cl <> "" ->
  Py.int cl = None ->
  SecurityMiddleware self inner scope send w
  = (Raised (ValueError cl), stamp w).
Proof.
  intros Hhttp Hhost Hcl Hne Hint. unfold SecurityMiddleware.
  http_branch Hhttp. unfold bind at 1 2, uuid4, set_request_id.
  cbn [uuid_next]. rewrite Hhost, Hcl. cbn [negb].
  unfold bind, exceeds_max. rewrite Hint.
  destruct cl; [congruence | reflexivity].
Qed.

Lemma size_ok_absent self scope :
  headers_get scope "content-length" = None -> size_ok self scope.
Proof. unfold size_ok. now intros ->. Qed.

Lemma size_ok_within self scope cl n :
  headers_get scope "content-length" = Some cl ->
  Py.int cl = Some n -> n <= max_request_size self -> size_ok self scope.
Proof.
  unfold size_ok. intros -> Hint Hle. unfold exceeds_max.
  rewrite (int_nonempty _ _ Hint), Hint.
  apply Z.ltb_ge in Hle. now rewrite Hle.
Qed.

Lemma security_delegates self inner scope send w :
  scope_type scope = "http" ->
  _validate_host self scope = true ->
  size_ok self scope ->
  SecurityMiddleware self inner scope send w
  = inner scope (security_send_wrapper (uuid_next w) send) (stamp w).
Proof.
  intros Hhttp Hhost Hsize. unfold SecurityMiddleware.
  http_branch Hhttp. unfold bind at 1 2, uuid4, set_request_id.
  cbn [uuid_next]. rewrite Hhost. cbn [negb]. rewrite Hsize. reflexivity.
Qed.

Lemma serve_http hosts endpoint scope w :
  scope_type scope = "http" ->
  serve hosts endpoint scope w
  = try_except
      (SecurityMiddleware (gate hosts)
         (ExceptionMiddleware [(CRateLimitExceeded, rate_limit_handler)]
            (router endpoint))
         scope (logging_send_wrapper server_send))
      (fun exc =>
         response <- _handle_exception scope exc ;;
         respond response server_send)
      (incoming scope w).
Proof.
  intros Hhttp. rewrite serve_stack.
  unfold ErrorHandlerMiddleware. http_branch Hhttp.
  unfold RequestValidationMiddleware. http_branch Hhttp.
  reflexivity.
Qed.

Ltac run_effects :=
  unfold respond, logging_send_wrapper, security_send_wrapper, bind, ret,
    raise, try_except, get_request_id, emit, server_send, enter_dispatch,
    stamp, incoming;
  cbn [state_request_id uuid_next wire log dispatched resp_status fst snd].

(* ------------------------------------------------------------------------- *)
(** ** The Security Gate: host validation *)

Lemma validate_host_wildcard self scope :
  In "*" (allowed_hosts self) -> _validate_host self scope = true.
Proof.
  intros H. apply list_in_spec in H. unfold _validate_host. now rewrite H.
Qed.

Lemma validate_host_listed self scope :
  ~ In "*" (allowed_hosts self) ->
  (_validate_host self scope = true <->
   exists entry,
     In entry (allowed_hosts self)
     /\ is_substring (Py.lower entry) (declared_host scope)).
Proof.
  intros Hw. unfold _validate_host.
  destruct (Py.list_in "*" (allowed_hosts self)) eqn:E.
  - apply list_in_spec in E. contradiction.
  - unfold Py.any. rewrite existsb_exists.
    split; intros [entry [Hin Hsub]]; exists entry; split; auto;
      now apply str_in_spec.
Qed.

(** C4 as stated fails when an allow-listed entry has an upper-case letter:
    the code lower-cases the entry before the containment test, so host
    [example.com] is accepted under the allow-list [["Example.COM"]] although
    the lower-cased host does not contain that entry. *)
Lemma host_entry_case_refuted :
  let self := mkSecurity ["Example.COM"] 1024 in
  let scope := http_get [("host", "example.com")] in
  ~ In "*" (allowed_hosts self)
  /\ _validate_host self scope = true
  /\ ~ host_contains_entry self scope.
Proof.
  cbv zeta. split; [|split].
  - simpl. intros [H|[]]. discriminate.
  - reflexivity.
  - intros [entry [[<-|[]] Hsub]]. apply str_in_spec in Hsub.
    vm_compute in Hsub. discriminate.
Qed.

(** C4, amended: under a non-wildcard allow-list the gate's host check passes
    if and only if the lower-cased declared host (empty when the header is
    absent) contains the lower-cased form of at least one allow-listed entry
    as a substring; when it fails, the gate answers 400 without calling the
    application it wraps, and in the assembled stack route dispatch is never
    entered.  When the allow-list has the wildcard entry every host passes
    the check. *)
Theorem host_validation_rule (self : SecurityMiddleware_self)
  (hosts : list string) (scope : Scope) (endpoint : Endpoint)
  (inner : App) (send : Send) (w : World)
  (Hhttp : scope_type scope = "http") :
  (In "*" (allowed_hosts self) -> _validate_host self scope = true)
  /\ (~ In "*" (allowed_hosts self) ->
      (_validate_host self scope = true <->
       exists entry,
         In entry (allowed_hosts self)
         /\ is_substring (Py.lower entry) (declared_host scope)))
  /\ (_validate_host self scope = false ->
      SecurityMiddleware self inner scope send w
      = respond
          (JSONResponse 400 (VDict [("detail", VStr "Invalid host header")]))
          send (stamp w))
  /\ (_validate_host (gate hosts) scope = false ->
      let after := serve hosts endpoint scope w in
      fst after = Returned tt
      /\ wire (snd after)
         = (wire w
            ++ sent (JSONResponse 400
                       (VDict [("detail", VStr "Invalid host header")])))%list
      /\ dispatched (snd after) = dispatched w).
Proof.
  split; [apply validate_host_wildcard|].
  split; [apply validate_host_listed|].
  split; [now apply security_rejects_host|].
  intros Hhost. cbv zeta. rewrite serve_http by assumption.
  unfold try_except. rewrite security_rejects_host by assumption.
  run_effects. unfold sent. cbn [resp_status].
  rewrite <- app_assoc. repeat split.
Qed.

Lemma host_validation_rule_witness :
  _validate_host (mkSecurity ["*"] 1024) (http_get [("host", "evil.test")])
  = true
  /\ _validate_host (mkSecurity ["Example.COM"] 1024)
       (http_get [("host", "evilEXAMPLE.com.attacker.net")]) = true
  /\ dispatched
       (snd (serve ["example.com"] (Replies 200 [] "ok")
               (http_get [("host", "evil.test")]) (arrival "id-1"))) = 0%nat.
Proof.
  split; [|split].
  - destruct (host_validation_rule (mkSecurity ["*"] 1024) []
                (http_get [("host", "evil.test")]) (Fails (ValueError ""))
                (fun _ _ => ret tt) server_send (arrival "") eq_refl)
      as (Hwild & _).
    apply Hwild. simpl. now left.
  - destruct (host_validation_rule (mkSecurity ["Example.COM"] 1024) []
                (http_get [("host", "evilEXAMPLE.com.attacker.net")])
                (Fails (ValueError "")) (fun _ _ => ret tt) server_send
                (arrival "") eq_refl)
      as (_ & Hlisted & _).
    apply Hlisted.
    + simpl. intros [H|[]]. discriminate.
    + exists "Example.COM". split; [now left|].
      exists "evil", ".attacker.net". reflexivity.
  - destruct (host_validation_rule (gate ["example.com"]) ["example.com"]
                (http_get [("host", "evil.test")]) (Replies 200 [] "ok")
                (fun _ _ => ret tt) server_send (arrival "id-1") eq_refl)
      as (_ & _ & _ & Hstack).
    apply Hstack. reflexivity.
Defined.

(* ------------------------------------------------------------------------- *)
(** ** The Security Gate: size validation *)

(** C6 as stated fails behind a rejected host: the host check comes first,
    so an oversized request with a host outside the allow-list is answered
    400, not 413. *)
Lemma oversized_behind_bad_host_refuted :
  let scope :=
    http_get [("host", "evil.test"); ("content-length", "10485761")] in
  let after := serve ["example.com"] (Replies 200 [] "ok") scope
                 (arrival "id-1") in
  headers_get scope "content-length" = Some "10485761"
  /\ Py.int "10485761" = Some 10485761
  /\ max_request_size (gate ["example.com"]) < 10485761
  /\ wire (snd after)
     = sent (JSONResponse 400 (VDict [("detail", VStr "Invalid host header")]))
  /\ wire (snd after)
     <> sent (JSONResponse 413 (VDict [("detail", VStr "Request too large")])).
Proof.
  cbv zeta. repeat split; try reflexivity. vm_compute. discriminate.
Qed.

(** C6, amended: for every request that passes host validation and whose
    declared Content-Length is present and exceeds the configured maximum,
    the gate short-circuits with a 413 response and route dispatch is never
    entered; for every request that passes host validation and declares no
    Content-Length, the size check passes and the gate hands the request to
    the application it wraps (the body is not read). *)
Theorem size_validation_rule (self : SecurityMiddleware_self)
  (hosts : list string) (scope : Scope) (endpoint : Endpoint)
  (inner : App) (send : Send) (w : World) (cl : string) (n : Z)
  (Hhttp : scope_type scope = "http")
  (Hself : _validate_host self scope = true)
  (Hhost : _validate_host (gate hosts) scope = true) :
  let too_large :=
    JSONResponse 413 (VDict [("detail", VStr "Request too large")]) in
  (headers_get scope "content-length" = Some cl ->
   Py.int cl = Some n ->
   max_request_size self < n ->
   SecurityMiddleware self inner scope send w = respond too_large send (stamp w))
  /\ (headers_get scope "content-length" = Some cl ->
      Py.int cl = Some n ->
      max_request_size (gate hosts) < n ->
      let after := serve hosts endpoint scope w in
      fst after = Returned tt
      /\ wire (snd after) = (wire w ++ sent too_large)%list
      /\ dispatched (snd after) = dispatched w)
  /\ (headers_get scope "content-length" = None ->
      SecurityMiddleware self inner scope send w
      = inner scope (security_send_wrapper (uuid_next w) send) (stamp w)).
Proof.
  cbv zeta. split; [|split].
  - intros Hcl Hint Hgt. now apply security_rejects_size with cl n.
  - intros Hcl Hint Hgt. rewrite serve_http by assumption.
    unfold try_except.
    rewrite (security_rejects_size _ _ _ _ _ cl n) by assumption.
    run_effects. unfold sent. cbn [resp_status].
    rewrite <- app_assoc. repeat split.
  - intros Hcl. apply security_delegates; auto. now apply size_ok_absent.
Qed.

Lemma size_validation_rule_witness :
  wire (snd (serve ["*"] (Replies 200 [] "ok")
               (http_get [("content-length", " 10_485_761 ")])
               (arrival "id-1")))
  = sent (JSONResponse 413 (VDict [("detail", VStr "Request too large")]))
  /\ SecurityMiddleware (gate ["*"]) (router (Replies 200 [] "ok"))
       (http_get []) server_send (arrival "id-1")
     = router (Replies 200 [] "ok") (http_get [])
         (security_send_wrapper "id-1" server_send) (stamp (arrival "id-1")).
Proof.
  split.
  - destruct (size_validation_rule (gate ["*"]) ["*"]
                (http_get [("content-length", " 10_485_761 ")])
                (Replies 200 [] "ok") (fun _ _ => ret tt) server_send
                (arrival "id-1") " 10_485_761 " 10485761
                eq_refl eq_refl eq_refl) as (_ & Hstack & _).
    apply Hstack; reflexivity.
  - destruct (size_validation_rule (gate ["*"]) ["*"] (http_get [])
                (Replies 200 [] "ok") (router (Replies 200 [] "ok"))
                server_send (arrival "id-1") "" 0
                eq_refl eq_refl eq_refl) as (_ & _ & Habsent).
    apply Habsent. reflexivity.
Defined.


(** The headers of a JSON response have none of the names the gate adds. *)
Lemma raw_headers_plain (r : Response) (uuid : string) :
  map (fun kv => Py.dict_get (raw_headers r) (fst kv)) (security_headers uuid)
  = [None; None; None; None; None; None].
Proof. reflexivity. Qed.



(* ------------------------------------------------------------------------- *)
(** ** Responses that pass the gate's header wrapper *)

Lemma dict_get_set_same {V} (d : list (string * V)) k v :
  Py.dict_get (Py.dict_set d k v) k = Some v.
Proof.
  induction d as [|[k' v'] d IH]; simpl.
  - now rewrite String.eqb_refl.
  - destruct (String.eqb_spec k k') as [->|Hne]; simpl.
    + now rewrite String.eqb_refl.
    + apply String.eqb_neq in Hne. now rewrite Hne.
Qed.

Lemma dict_get_set_other {V} (d : list (string * V)) k k' v :
  k <> k' -> Py.dict_get (Py.dict_set d k' v) k = Py.dict_get d k.
Proof.
  intros Hne. induction d as [|[k0 v0] d IH]; simpl.
  - apply String.eqb_neq in Hne. now rewrite Hne.
  - destruct (String.eqb_spec k' k0) as [->|Hne']; simpl.
    + apply String.eqb_neq in Hne. now rewrite Hne.
    + now rewrite IH.
Qed.

Lemma with_security_headers_get request_id headers k v :
  In (k, v) (security_headers request_id) ->
  Py.dict_get (with_security_headers request_id headers) k = Some v.
Proof.
  unfold with_security_headers, security_headers.
  generalize (Py.dict_of headers) as d. intros d Hin.
  cbn [fold_left fst snd].
  repeat (destruct Hin as [E|Hin];
          [ injection E as <- <-;
            repeat (rewrite dict_get_set_other by discriminate);
            apply dict_get_set_same | ]).
  destruct Hin.
Qed.

(** A response that route dispatch produces behind the gate reaches the
    server with the six headers of the gate. *)
Lemma routed_response_carries_security_headers hosts scope w status headers
  text :
  scope_type scope = "http" ->
  _validate_host (gate hosts) scope = true ->
  size_ok (gate hosts) scope ->
  wire (snd (serve hosts (Replies status headers text) scope w))
  = (wire w
     ++ [ResponseStart status (with_security_headers (uuid_next w) headers);
         ResponseBody text])%list.
Proof.
  intros Hhttp Hhost Hsize. rewrite serve_http by assumption.
  unfold try_except. rewrite security_delegates by assumption.
  unfold ExceptionMiddleware, router. run_effects.
  now rewrite <- app_assoc.
Qed.

(** C1, evaluated where it fails: the 413 and 400 answers of the gate and the
    500 envelope of the Error Classifier reach the server with the two
    headers of the JSON response only; none of the five security headers and
    no [x-request-id] is among them. *)
Theorem short_circuit_responses_lack_security_headers
  (endpoint : Endpoint) (uuid : string) :
  wire (snd (serve ["*"] endpoint
               (http_get [("host", "gateway");
                          ("content-length", "10485761")])
               (arrival uuid)))
  = sent (JSONResponse 413 (VDict [("detail", VStr "Request too large")]))
  /\ wire (snd (serve ["example.com"] endpoint
                  (http_get [("host", "evil.test")]) (arrival uuid)))
     = sent (JSONResponse 400 (VDict [("detail", VStr "Invalid host header")]))
  /\ wire (snd (serve ["*"] (Fails (OtherException "KeyError" "alert_id"))
                  (http_get [("host", "gateway")]) (arrival uuid)))
     = sent (JSONResponse 500
               (VDict [("error", VStr "INTERNAL_SERVER_ERROR");
                       ("detail", VStr "An internal server error occurred");
                       ("request_id", VStr uuid)]))
  /\ (forall r : Response,
        Py.keys (raw_headers r) = ["content-length"; "content-type"]
        /\ map (fun kv => Py.dict_get (raw_headers r) (fst kv))
             (security_headers uuid)
           = [None; None; None; None; None; None]).
Proof. repeat split. Qed.

(** C2, evaluated where it fails: no handler is registered for the
    business-logic exception and the classifier has no branch for it, so the
    exception leaves through the internal-error branch as a 500 envelope;
    the handler that would build the 400 envelope exists but is never
    called. *)
Theorem business_logic_error_answered_as_internal_error
  (message : string) (error_code : option string) (uuid : string) :
  let exc := BusinessLogicError message error_code in
  let scope := http_get [("host", "gateway")] in
  lookup_handler (exception_handlers (app ["*"])) exc = None
  /\ wire (snd (serve ["*"] (Fails exc) scope (arrival uuid)))
     = sent (JSONResponse 500
               (VDict [("error", VStr "INTERNAL_SERVER_ERROR");
                       ("detail", VStr "An internal server error occurred");
                       ("request_id", VStr uuid)]))
  /\ fst (business_logic_error_handler scope exc (stamp (arrival uuid)))
     = Returned
         (JSONResponse 400
            (VDict [("error", VStr "BUSINESS_LOGIC_ERROR");
                    ("error_code", opt_str error_code);
                    ("detail", VStr message);
                    ("request_id", VStr uuid)])).
Proof. repeat split. Qed.

(* ------------------------------------------------------------------------- *)
(** ** The Error Classifier *)





Lemma collect_errors_from exc_errors : forall acc,
  fold_left (fun errors error => errors ++ [field_error error])%list
    exc_errors acc
  = (acc ++ map field_error exc_errors)%list.
Proof.
  induction exc_errors as [|e l IH]; intros acc; simpl.
  - now rewrite app_nil_r.
  - rewrite IH, <- app_assoc. reflexivity.
Qed.

Lemma collect_errors_map exc_errors :
  collect_errors exc_errors = map field_error exc_errors.
Proof. apply collect_errors_from. Qed.

(** The two validation branches of the classifier: a request-schema
    validation failure that reaches it is answered 422 with kind
    VALIDATION_ERROR and detail "Request validation failed", a data-model
    validation failure 422 with the same kind and detail "Data validation
    failed"; the errors list has one entry per reported failure in the
    reported order, each with the location path joined by "." as [field], the
    message and the type tag. *)
Theorem validation_failures_envelope (scope : Scope) (w : World)
  (errors : list ErrorDict)
  (Hhttp : scope_type scope = "http") :
  let entry := fun e =>
    VDict [("field", VStr (Py.join "." (map loc_str (err_loc e))));
           ("message", VStr (err_msg e));
           ("type", VStr (err_type e))] in
  let envelope := fun detail =>
    JSONResponse 422
      (VDict [("error", VStr "VALIDATION_ERROR");
              ("detail", VStr detail);
              ("errors", VList (map entry errors));
              ("request_id", opt_str (state_request_id w))]) in
  let raising exc : App := fun _ _ => raise exc in
  fst (_handle_exception scope (RequestValidationError errors) w)
  = Returned (envelope "Request validation failed")
  /\ fst (_handle_exception scope (ValidationError errors) w)
     = Returned (envelope "Data validation failed")
  /\ wire (snd (ErrorHandlerMiddleware
                  (raising (RequestValidationError errors)) scope server_send
                  w))
     = (wire w ++ sent (envelope "Request validation failed"))%list
  /\ wire (snd (ErrorHandlerMiddleware
                  (raising (ValidationError errors)) scope server_send w))
     = (wire w ++ sent (envelope "Data validation failed"))%list
  /\ length (map entry errors) = length errors
  /\ (forall i, nth_error (map entry errors) i
                = option_map entry (nth_error errors i)).
Proof.
  cbv zeta.
  unfold ErrorHandlerMiddleware. http_branch Hhttp.
  unfold _handle_exception, _handle_validation_error,
    _handle_pydantic_validation_error.
  run_effects. rewrite collect_errors_map. unfold field_error, sent.
  cbn [resp_status]. rewrite <- !app_assoc.
  repeat split.
  - apply length_map.
  - intros i. apply nth_error_map.
Qed.

Lemma validation_failures_envelope_witness :
  fst (_handle_exception (http_get [])
         (RequestValidationError
            [mkError [LocStr "body"; LocStr "items"; LocInt 0; LocStr "name"]
               "field required" "value_error.missing";
             mkError [LocStr "query"; LocStr "limit"]
               "value is not a valid integer" "type_error.integer"])
         (stamp (arrival "id-1")))
  = Returned
      (JSONResponse 422
         (VDict [("error", VStr "VALIDATION_ERROR");
                 ("detail", VStr "Request validation failed");
                 ("errors",
                  VList [VDict [("field", VStr "body.items.0.name");
                                ("message", VStr "field required");
                                ("type", VStr "value_error.missing")];
                         VDict [("field", VStr "query.limit");
                                ("message", VStr "value is not a valid integer");
                                ("type", VStr "type_error.integer")]]);
                 ("request_id", VStr "id-1")])).
Proof.
  destruct (validation_failures_envelope (http_get [])
              (stamp (arrival "id-1"))
              [mkError [LocStr "body"; LocStr "items"; LocInt 0; LocStr "name"]
                 "field required" "value_error.missing";
               mkError [LocStr "query"; LocStr "limit"]
                 "value is not a valid integer" "type_error.integer"]
              eq_refl) as (Hreq & _).
  exact Hreq.
Defined.

(* ------------------------------------------------------------------------- *)
(** ** The assembled stack, request by request *)

Lemma security_by_verdict self inner scope send w :
  scope_type scope = "http" ->
  SecurityMiddleware self inner scope send w
  = match gate_verdict self scope with
    | BadHost =>
        respond
          (JSONResponse 400 (VDict [("detail", VStr "Invalid host header")]))
          send (stamp w)
    | TooLarge =>
        respond
          (JSONResponse 413 (VDict [("detail", VStr "Request too large")]))
          send (stamp w)
    | BadLength cl => (Raised (ValueError cl), stamp w)
    | Pass => inner scope (security_send_wrapper (uuid_next w) send) (stamp w)
    end.
Proof.
  intros Hhttp. unfold gate_verdict.
  destruct (_validate_host self scope) eqn:Hhost; cbn [negb].
  2: now apply security_rejects_host.
  destruct (headers_get scope "content-length") as [cl|] eqn:Hcl.
  2: { apply security_delegates; auto. now apply size_ok_absent. }
  destruct (Py.truthy cl) eqn:Ht.
  2: { apply security_delegates; auto. unfold size_ok. rewrite Hcl.
       unfold exceeds_max. now rewrite Ht. }
  destruct (Py.int cl) as [n|] eqn:Hint.
  - destruct (max_request_size self <? n) eqn:Hn.
    + apply security_rejects_size with cl n; auto. now apply Z.ltb_lt.
    + apply security_delegates; auto.
      apply size_ok_within with cl n; auto. now apply Z.ltb_ge.
  - apply security_conversion_error; auto. intros ->. discriminate.
Qed.

Ltac walk Hhttp :=
  rewrite ?serve_http by exact Hhttp;
  unfold serve_without_logger, ErrorHandlerMiddleware;
  rewrite ?Hhttp;
  change (negb ("http" =? "http")%string) with false; cbv iota;
  unfold try_except;
  rewrite !security_by_verdict by exact Hhttp;
  unfold answered_by_classifier;
  destruct (gate_verdict _ _);
  [ | | | unfold ExceptionMiddleware, router;
          match goal with
          | e : Endpoint |- _ =>
              destruct e as [? ? ?|[? ?|?|?|[?|]|? ?|? ?|? ? ?|? ?]]
          end;
          cbv beta iota delta
            [try_except bind enter_dispatch raise lookup_handler isinstance
               class_of class_eqb framework_handler http_exception_handler];
          try (destruct (is_body_allowed_for_status_code _); cbv beta iota;
               unfold send_reply; try destruct (_ =? 205)) ].

(** Runs the effects of a goal to the end, on a world taken apart. *)
Ltac settle w :=
  destruct w;
  cbv beta iota zeta delta
    [lookup_handler isinstance class_of class_eqb exception_handlers app
       add_exception_handler add_middleware FastAPI_new
       _handle_exception _handle_http_exception _handle_validation_error
       _handle_pydantic_validation_error _handle_internal_error
       rate_limit_handler attr_retry_after ValueError AttributeError negb
       framework_handler request_validation_exception_handler send_reply
       respond logging_send_wrapper security_send_wrapper bind ret raise
       try_except get_request_id emit server_send enter_dispatch stamp
       incoming incoming_record state_request_id uuid_next wire log
       dispatched resp_status fst snd].



(** X2: every HTTP request leaves the stack with the identifier the gate
    drew stored in the request state, also when the gate rejects it or the
    conversion of the length fails. *)
Theorem serve_stamps_request_id (hosts : list string) (endpoint : Endpoint)
  (scope : Scope) (w : World)
  (Hhttp : scope_type scope = "http") :
  state_request_id (snd (serve hosts endpoint scope w)) = Some (uuid_next w)
  /\ uuid_next (snd (serve hosts endpoint scope w)) = uuid_next w.
Proof. walk Hhttp; split; reflexivity. Qed.

Lemma serve_stamps_request_id_witness :
  state_request_id
    (snd (serve ["example.com"] (Replies 200 [] "ok")
            (http_get [("host", "evil.test")]) (arrival "id-1")))
  = Some "id-1".
Proof.
  apply (serve_stamps_request_id ["example.com"] (Replies 200 [] "ok")
           (http_get [("host", "evil.test")]) (arrival "id-1") eq_refl).
Defined.

Lemma ret_injective {A} (a b : A) : @ret A a = ret b -> a = b.
Proof.
  intros H. apply (f_equal (fun c => fst (c (arrival "")))) in H.
  now injection H.
Qed.

Lemma verdict_pass self scope :
  gate_verdict self scope = Pass
  <-> _validate_host self scope = true /\ size_ok self scope.
Proof.
  unfold gate_verdict, size_ok, exceeds_max.
  destruct (_validate_host self scope); cbn [negb].
  2: { split; [discriminate | intros [H _]; discriminate]. }
  destruct (headers_get scope "content-length") as [cl|]; [|tauto].
  destruct (Py.truthy cl); [|tauto].
  destruct (Py.int cl) as [n|].
  - destruct (max_request_size self <? n).
    + split; [discriminate|]. intros [_ H].
      apply ret_injective in H. discriminate.
    + tauto.
  - split; [discriminate|]. intros [_ H].
    apply (f_equal (fun c => fst (c (arrival "")))) in H. discriminate.
Qed.

(** X3: route dispatch is entered exactly once when the host check passes
    and the size check lets the request through, and not at all for any
    other HTTP request. *)
Theorem dispatch_follows_gate (hosts : list string) (endpoint : Endpoint)
  (scope : Scope) (w : World)
  (Hhttp : scope_type scope = "http") :
  let after := snd (serve hosts endpoint scope w) in
  (_validate_host (gate hosts) scope = true /\ size_ok (gate hosts) scope ->
   dispatched after = S (dispatched w))
  /\ (~ (_validate_host (gate hosts) scope = true
         /\ size_ok (gate hosts) scope) ->
      dispatched after = dispatched w).
Proof.
  cbv zeta. rewrite <- verdict_pass.
  split; intros Hv; revert Hv; walk Hhttp; intros Hv;
    try reflexivity; try discriminate; now contradiction Hv.
Qed.

Lemma dispatch_follows_gate_witness :
  dispatched
    (snd (serve ["*"] (Fails (OtherException "KeyError" "k"))
            (http_get [("content-length", "10485760")]) (arrival "id-1")))
  = 1%nat
  /\ dispatched
       (snd (serve ["*"] (Fails (OtherException "KeyError" "k"))
               (http_get [("content-length", "ten")]) (arrival "id-1")))
     = 0%nat.
Proof.
  split.
  - apply (dispatch_follows_gate ["*"] (Fails (OtherException "KeyError" "k"))
             (http_get [("content-length", "10485760")]) (arrival "id-1")
             eq_refl).
    split; reflexivity.
  - apply (dispatch_follows_gate ["*"] (Fails (OtherException "KeyError" "k"))
             (http_get [("content-length", "ten")]) (arrival "id-1")
             eq_refl).
    intros [_ H]. apply (f_equal (fun c => fst (c (arrival "")))) in H.
    discriminate.
Defined.



(** X5: the logger is a side channel: with [RequestValidationMiddleware]
    taken out of the stack, every HTTP request gets the same messages on the
    wire, the same request state, the same outcome and the same number of
    dispatches. *)
Theorem logger_is_a_side_channel (hosts : list string) (endpoint : Endpoint)
  (scope : Scope) (w : World)
  (Hhttp : scope_type scope = "http") :
  let logged := serve hosts endpoint scope w in
  let plain := serve_without_logger hosts endpoint scope w in
  fst logged = fst plain
  /\ wire (snd logged) = wire (snd plain)
  /\ state_request_id (snd logged) = state_request_id (snd plain)
  /\ dispatched (snd logged) = dispatched (snd plain).
Proof. cbv zeta. walk Hhttp; repeat split. Qed.

Lemma logger_is_a_side_channel_witness :
  wire (snd (serve ["*"] (Fails (RateLimitExceeded None))
               (http_get [("user-agent", "curl/8.0")]) (arrival "id-1")))
  = wire (snd (serve_without_logger ["*"] (Fails (RateLimitExceeded None))
                 (http_get [("user-agent", "curl/8.0")]) (arrival "id-1"))).
Proof.
  apply (logger_is_a_side_channel ["*"] (Fails (RateLimitExceeded None))
           (http_get [("user-agent", "curl/8.0")]) (arrival "id-1") eq_refl).
Defined.

(** X6: the first record an HTTP request adds to the log is the "Incoming
    request" record, written before the gate runs: its request_id is what
    the request state held on arrival, not the identifier the gate draws.
    A "Request completed" record follows exactly when the response was not
    built by the Error Classifier, whose responses go past the logger; the
    classifier builds the response when the conversion of the length fails
    in the gate, when the route raises an exception that has no handler,
    and when the rate-limit handler fails on the limiter's exception. *)
Theorem completion_record_skips_classifier (hosts : list string)
  (endpoint : Endpoint) (scope : Scope) (w : World)
  (Hhttp : scope_type scope = "http") :
  exists rest,
    log (snd (serve hosts endpoint scope w))
    = (log w ++ incoming_record scope w :: rest)%list
    /\ existsb is_completion rest
       = negb (answered_by_classifier (gate hosts) endpoint scope).
Proof.
  walk Hhttp; settle w; rewrite <- ?app_assoc; eexists; split; reflexivity.
Qed.

Lemma completion_record_skips_classifier_witness :
  exists rest,
    log (snd (serve ["*"] (Fails (BusinessLogicError "duplicate" None))
                (http_get []) (arrival "id-1")))
    = incoming_record (http_get []) (arrival "id-1") :: rest
    /\ existsb is_completion rest = false.
Proof.
  apply (completion_record_skips_classifier ["*"]
           (Fails (BusinessLogicError "duplicate" None)) (http_get [])
           (arrival "id-1") eq_refl).
Defined.

(** Outside HTTP the exception middleware still looks for a handler: an
    exception the framework handles does not leave the stack. *)
Lemma framework_handler_answers_outside_http :
  fst (serve ["example.com"] (Fails (HTTPException 404 (VStr "Not Found")))
         (mkScope "websocket" "GET" "ws://gateway/ws" "/ws" None
            [("host", "evil.test")])
         (arrival "id-1"))
  = Returned tt.
Proof. reflexivity. Qed.

(** X7: a scope that is not HTTP goes through all three middlewares
    untouched: no identifier is drawn, nothing is logged, the host and size
    checks are not applied, and an exception of the route that has no
    handler, neither of the application nor of the framework, is not
    caught. *)
Theorem non_http_scope_bypasses_middleware (hosts : list string)
  (endpoint : Endpoint) (scope : Scope) (w : World) (exc : exception)
  (Hother : scope_type scope <> "http") :
  serve hosts endpoint scope w
  = ExceptionMiddleware [(CRateLimitExceeded, rate_limit_handler)]
      (router endpoint) scope server_send w
  /\ (isinstance exc CRateLimitExceeded = false ->
      framework_handled (Fails exc) = false ->
      serve hosts (Fails exc) scope w
      = (Raised exc,
         mkWorld (state_request_id w) (uuid_next w) (wire w) (log w)
           (S (dispatched w)))).
Proof.
  apply String.eqb_neq in Hother.
  assert (Hserve : forall e, serve hosts e scope w
    = ExceptionMiddleware [(CRateLimitExceeded, rate_limit_handler)]
        (router e) scope server_send w).
  { intros e. rewrite serve_stack.
    unfold ErrorHandlerMiddleware, RequestValidationMiddleware,
      SecurityMiddleware.
    rewrite Hother. reflexivity. }
  split; [apply Hserve|].
  intros Hexc Hfw. rewrite Hserve.
  unfold ExceptionMiddleware, router, try_except, bind, enter_dispatch, raise.
  cbn [lookup_handler]. rewrite Hexc.
  destruct exc; try discriminate Hfw; reflexivity.
Qed.

Lemma non_http_scope_bypasses_middleware_witness :
  let scope :=
    mkScope "websocket" "GET" "ws://gateway/ws" "/ws" None
      [("host", "evil.test")] in
  serve ["example.com"] (Fails (OtherException "KeyError" "k")) scope
    (arrival "id-1")
  = (Raised (OtherException "KeyError" "k"), mkWorld None "id-1" [] [] 1).
Proof.
  cbv zeta.
  assert (Hother : "websocket" <> "http") by discriminate.
  destruct (non_http_scope_bypasses_middleware ["example.com"]
              (Replies 200 [] "ok")
              (mkScope "websocket" "GET" "ws://gateway/ws" "/ws" None
                 [("host", "evil.test")])
              (arrival "id-1") (OtherException "KeyError" "k") Hother)
    as (_ & Hraise).
  apply Hraise; reflexivity.
Defined.

(* ------------------------------------------------------------------------- *)
(** ** The header wrapper of the gate *)

Lemma dict_of_snoc {V} (l : list (string * V)) k v :
  Py.dict_of (l ++ [(k, v)]) = Py.dict_set (Py.dict_of l) k v.
Proof. unfold Py.dict_of. now rewrite fold_left_app. Qed.

Lemma dict_get_set {V} (d : list (string * V)) k k' v :
  Py.dict_get (Py.dict_set d k' v) k
  = if String.eqb k k' then Some v else Py.dict_get d k.
Proof.
  destruct (String.eqb_spec k k') as [->|Hne].
  - apply dict_get_set_same.
  - now apply dict_get_set_other.
Qed.

(** Looking a key up in [dict(pairs)] finds the last pair of that name. *)
Lemma dict_of_get {V} (l : list (string * V)) k :
  Py.dict_get (Py.dict_of l) k = Py.dict_get (rev l) k.
Proof.
  induction l as [|[k' v'] l IH] using rev_ind; [reflexivity|].
  rewrite dict_of_snoc, dict_get_set, rev_app_distr. simpl.
  now rewrite IH.
Qed.

(** X8: on a response start the wrapper of the gate sets each of its six
    headers to the gate's value, replacing a value the route gave under the
    same name; a header of any other name keeps the value of its last
    occurrence, and no header name occurs twice in the result: repeated
    headers of the route are collapsed into one. *)
Theorem security_headers_override_and_collapse (request_id : string)
  (send : Send) (status : Z) (headers : list (string * string))
  (k v : string) :
  let result := with_security_headers request_id headers in
  security_send_wrapper request_id send (ResponseStart status headers)
  = send (ResponseStart status result)
  /\ (In (k, v) (security_headers request_id) ->
      Py.dict_get result k = Some v)
  /\ (~ In k (Py.keys (security_headers request_id)) ->
      Py.dict_get result k = Py.dict_get (rev headers) k)
  /\ NoDup (Py.keys result).
Proof.
  cbv zeta. split; [reflexivity|]. split; [|split].
  - apply with_security_headers_get.
  - intros Hk. unfold with_security_headers, security_headers in *.
    cbn [fold_left fst snd]. cbn [Py.keys map fst In] in Hk.
    repeat (rewrite dict_get_set_other by (intros ->; tauto)).
    apply dict_of_get.
  - unfold with_security_headers. apply fold_set_nodup, dict_of_nodup.
Qed.

Lemma security_headers_override_and_collapse_witness :
  let headers :=
    [("set-cookie", "a=1"); ("x-frame-options", "SAMEORIGIN");
     ("set-cookie", "b=2")] in
  Py.dict_get (with_security_headers "id-1" headers) "x-frame-options"
  = Some "DENY"
  /\ Py.dict_get (with_security_headers "id-1" headers) "set-cookie"
     = Some "b=2".
Proof.
  cbv zeta. split.
  - destruct (security_headers_override_and_collapse "id-1" server_send 200
                [("set-cookie", "a=1"); ("x-frame-options", "SAMEORIGIN");
                 ("set-cookie", "b=2")] "x-frame-options" "DENY")
      as (_ & Hset & _).
    apply Hset. simpl. tauto.
  - destruct (security_headers_override_and_collapse "id-1" server_send 200
                [("set-cookie", "a=1"); ("x-frame-options", "SAMEORIGIN");
                 ("set-cookie", "b=2")] "set-cookie" "b=2")
      as (_ & _ & Hkeep & _).
    rewrite Hkeep; [reflexivity|].
    simpl. intuition discriminate.
Defined.

(* ------------------------------------------------------------------------- *)
(** ** The Error Classifier, branch by branch *)




(** X12: the handlers for infrastructure failures keep the failure's
    particulars out of the response: the database handler answers with the
    same 500 envelope whatever the message and the operation; the external
    service handler answers 502 with a detail that names the service (the
    text "None" when no service is given) and is the same whatever the
    message and the upstream status. *)
Theorem infrastructure_handlers_are_opaque (scope : Scope) (w : World)
  (message1 message2 : string) (operation1 operation2 : option string)
  (service : option string) (status1 status2 : option Z) :
  fst (database_error_handler scope (DatabaseError message1 operation1) w)
  = fst (database_error_handler scope (DatabaseError message2 operation2) w)
  /\ fst (external_service_error_handler scope
            (ExternalServiceError message1 service status1) w)
     = fst (external_service_error_handler scope
              (ExternalServiceError message2 service status2) w)
  /\ exists detail,
       fst (external_service_error_handler scope
              (ExternalServiceError message1 service status1) w)
       = Returned
           (JSONResponse 502
              (VDict [("error", VStr "EXTERNAL_SERVICE_ERROR");
                      ("detail", VStr detail);
                      ("request_id", opt_str (state_request_id w))]))
       /\ is_substring
            (match service with Some s => s | None => "None" end) detail.
Proof.
  split; [reflexivity|]. split; [reflexivity|].
  eexists. split; [reflexivity|].
  exists "External service (", ") is unavailable". reflexivity.
Qed.

(* ------------------------------------------------------------------------- *)
(** ** The gate at the edges of its configuration *)

(** X13: an allow-list that is left out or empty is replaced by the
    wildcard, so the gate then accepts every host; in the assembled
    application an empty [ALLOWED_HOSTS] switches host validation off. *)
Theorem unset_allow_list_accepts_every_host (size : option Z)
  (scope : Scope) :
  _validate_host (SecurityMiddleware_init None size) scope = true
  /\ _validate_host (SecurityMiddleware_init (Some []) size) scope = true
  /\ _validate_host (gate []) scope = true.
Proof. repeat split. Qed.

Lemma str_in_empty s : Py.str_in "" s = true.
Proof. destruct s; reflexivity. Qed.

Lemma lower_empty a : Py.lower a = "" <-> a = "".
Proof. destruct a; simpl; split; congruence. Qed.

(** X14: an allow-list with an empty entry accepts every host, since the
    empty string is contained in any host; and a request without a Host
    header is accepted under a non-wildcard allow-list only through such an
    entry. *)
Theorem blank_entry_accepts_every_host (self : SecurityMiddleware_self)
  (scope : Scope) :
  (In "" (allowed_hosts self) -> _validate_host self scope = true)
  /\ (~ In "*" (allowed_hosts self) ->
      headers_get scope "host" = None ->
      (_validate_host self scope = true <-> In "" (allowed_hosts self))).
Proof.
  split.
  - intros Hin. unfold _validate_host.
    destruct (Py.list_in "*" (allowed_hosts self)); [reflexivity|].
    unfold Py.any. apply existsb_exists. exists "". split; [assumption|].
    apply str_in_empty.
  - intros Hw Hhost. rewrite validate_host_listed by assumption.
    unfold declared_host, headers_get_default. rewrite Hhost. simpl.
    split.
    + intros [entry [Hin [pre [post H]]]].
      destruct pre; [|discriminate]. simpl in H.
      destruct (Py.lower entry) eqn:E; [|discriminate].
      apply (proj1 (lower_empty entry)) in E. now subst.
    + intros Hin. exists "". split; [assumption|]. now exists "", "".
Qed.

Lemma blank_entry_accepts_every_host_witness :
  _validate_host (mkSecurity ["api.example.com"; ""] 1024)
    (http_get [("host", "evil.test")]) = true
  /\ _validate_host (mkSecurity ["api.example.com"] 1024) (http_get [])
     <> true.
Proof.
  destruct (blank_entry_accepts_every_host
              (mkSecurity ["api.example.com"; ""] 1024)
              (http_get [("host", "evil.test")])) as (Hblank & _).
  destruct (blank_entry_accepts_every_host
              (mkSecurity ["api.example.com"] 1024) (http_get []))
    as (_ & Hmissing).
  split.
  - apply Hblank. simpl. tauto.
  - intros Hacc. apply Hmissing in Hacc; try reflexivity.
    + simpl in Hacc. intuition discriminate.
    + simpl. intuition discriminate.
Defined.

Lemma lower_char_star c :
  Ascii.eqb "*" (Py.lower_char c) = Ascii.eqb "*" c.
Proof. destruct c as [[] [] [] [] [] [] [] []]; reflexivity. Qed.

Lemma star_eqb_lower a : String.eqb "*" (Py.lower a) = String.eqb "*" a.
Proof.
  destruct a as [|c r]; [reflexivity|].
  cbn [Py.lower String.eqb]. rewrite lower_char_star. now destruct r.
Qed.

Lemma existsb_map_compose {A B} (f : B -> bool) (g : A -> B) (l : list A) :
  existsb f (map g l) = existsb (fun x => f (g x)) l.
Proof. induction l; simpl; congruence. Qed.

Lemma validate_host_by_lowered self scope :
  _validate_host self scope
  = if Py.list_in "*" (map Py.lower (allowed_hosts self)) then true
    else existsb (fun entry => Py.str_in entry (declared_host scope))
           (map Py.lower (allowed_hosts self)).
Proof.
  unfold _validate_host, Py.list_in, Py.any.
  rewrite !existsb_map_compose.
  replace (existsb (fun x => String.eqb "*" (Py.lower x)) (allowed_hosts self))
    with (existsb (String.eqb "*") (allowed_hosts self)); [reflexivity|].
  induction (allowed_hosts self) as [|a l IH]; [reflexivity|].
  cbn [existsb]. now rewrite star_eqb_lower, IH.
Qed.

(** X15: host validation looks at letters without their case, in the Host
    header and in the allow-list alike: two gates whose entries agree after
    lower-casing give two requests whose hosts agree after lower-casing the
    same verdict.  It is also monotone: a host accepted under one allow-list
    is accepted under every allow-list that contains it. *)
Theorem host_validation_ignores_case (self1 self2 : SecurityMiddleware_self)
  (scope1 scope2 : Scope)
  (Hentries : map Py.lower (allowed_hosts self1)
              = map Py.lower (allowed_hosts self2))
  (Hhost : declared_host scope1 = declared_host scope2) :
  _validate_host self1 scope1 = _validate_host self2 scope2
  /\ ((forall entry, In entry (allowed_hosts self1) ->
                     In entry (allowed_hosts self2)) ->
      _validate_host self1 scope1 = true ->
      _validate_host self2 scope1 = true).
Proof.
  split.
  - rewrite !validate_host_by_lowered. now rewrite Hentries, Hhost.
  - intros Hincl. unfold _validate_host.
    destruct (Py.list_in "*" (allowed_hosts self1)) eqn:E1.
    + intros _. apply list_in_spec, Hincl, list_in_spec in E1.
      now rewrite E1.
    + destruct (Py.list_in "*" (allowed_hosts self2)); [reflexivity|].
      unfold Py.any. rewrite !existsb_exists.
      intros [entry [Hin Hsub]]. exists entry. auto.
Qed.

Lemma host_validation_ignores_case_witness :
  _validate_host (mkSecurity ["API.Example.COM"] 1024)
    (http_get [("host", "api.EXAMPLE.com:8443")])
  = _validate_host (mkSecurity ["api.example.com"] 4096)
      (http_get [("host", "Api.Example.Com:8443")]).
Proof.
  destruct (host_validation_ignores_case
              (mkSecurity ["API.Example.COM"] 1024)
              (mkSecurity ["api.example.com"] 4096)
              (http_get [("host", "api.EXAMPLE.com:8443")])
              (http_get [("host", "Api.Example.Com:8443")])
              eq_refl eq_refl) as (Hsame & _).
  exact Hsame.
Defined.

(** X16: the size check is strict and lenient at its edges: a declared
    length up to and including the maximum, a negative one, and an empty
    Content-Length value all let the request through to the wrapped
    application. *)
Theorem size_check_boundary (self : SecurityMiddleware_self) (inner : App)
  (scope : Scope) (send : Send) (w : World) (cl : string) (n : Z)
  (Hhttp : scope_type scope = "http")
  (Hhost : _validate_host self scope = true)
  (Hcl : headers_get scope "content-length" = Some cl)
  (Hvalue : cl = "" \/ (Py.int cl = Some n /\ n <= max_request_size self)) :
  SecurityMiddleware self inner scope send w
  = inner scope (security_send_wrapper (uuid_next w) send) (stamp w).
Proof.
  apply security_delegates; auto.
  destruct Hvalue as [->|[Hint Hle]].
  - unfold size_ok. now rewrite Hcl.
  - now apply size_ok_within with cl n.
Qed.

Lemma size_check_boundary_witness :
  dispatched
    (snd (SecurityMiddleware (gate ["*"]) (router (Replies 200 [] "ok"))
            (http_get [("content-length", "10485760")]) server_send
            (arrival "id-1"))) = 1%nat
  /\ dispatched
       (snd (SecurityMiddleware (gate ["*"]) (router (Replies 200 [] "ok"))
               (http_get [("content-length", "-1")]) server_send
               (arrival "id-1"))) = 1%nat.
Proof.
  split.
  - rewrite (size_check_boundary (gate ["*"]) (router (Replies 200 [] "ok"))
               (http_get [("content-length", "10485760")]) server_send
               (arrival "id-1") "10485760" 10485760 eq_refl eq_refl eq_refl).
    + reflexivity.
    + right. split; [reflexivity | discriminate].
  - rewrite (size_check_boundary (gate ["*"]) (router (Replies 200 [] "ok"))
               (http_get [("content-length", "-1")]) server_send
               (arrival "id-1") "-1" (-1) eq_refl eq_refl eq_refl).
    + reflexivity.
    + right. split; [reflexivity | discriminate].
Defined.

(* ------------------------------------------------------------------------- *)
(** ** The sanitizer, as far as it reaches *)

Lemma forallb_Forall {A} (f : A -> bool) (l : list A) :
  forallb f l = true <-> Forall (fun x => f x = true) l.
Proof. rewrite forallb_forall, Forall_forall. reflexivity. Qed.

Section sanitizer_reach.
Variable clean : string -> string.
Variable P : string -> bool.
Hypothesis clean_establishes : forall s, P (clean s) = true.

Lemma sanitized_reached v :
  reached_all P (sanitize_entry clean v) = true
  /\ reached_all P (VList [sanitize_item clean v]) = true.
Proof.
  induction v as [ | b | z | s | l IH | items IH ] using value_deep_ind;
    try (split; reflexivity).
  - split; simpl; now rewrite clean_establishes.
  - split; [|reflexivity].
    cbn [sanitize_entry reached_all]. apply forallb_Forall, Forall_map.
    eapply Forall_impl; [|exact IH]. intros x [_ Hx].
    cbn [reached_all forallb] in Hx. now rewrite andb_true_r in Hx.
  - assert (H : reached_all P (validate_json_input clean (VDict items)) = true).
    { rewrite validate_json_input_dict. cbn [reached_all].
      apply forallb_Forall, dict_of_Forall, Forall_map.
      eapply Forall_impl; [|exact IH]. intros [k x] [Hx _]. exact Hx. }
    split; [exact H|].
    change (sanitize_item clean (VDict items))
      with (validate_json_input clean (VDict items)).
    rewrite validate_json_input_dict in *.
    cbn [reached_all forallb] in *. now rewrite andb_true_r.
Qed.

End sanitizer_reach.

(** X17: after [validate_json_input] every string the function reaches in a
    mapping satisfies whatever the string cleaner establishes on its
    outputs: with a cleaner whose results are free of [<], no string value
    of the mapping, of a nested mapping or among the elements of a list
    value has a [<] left. *)
Theorem validate_json_input_cleans_what_it_reaches
  (clean : string -> string) (P : string -> bool)
  (items : list (string * value))
  (Hclean : forall s, P (clean s) = true) :
  reached_all P (validate_json_input clean (VDict items)) = true.
Proof. apply (sanitized_reached clean P Hclean (VDict items)). Qed.

Lemma clean_tag_free s : tag_free (Bleach.clean s) = true.
Proof.
  unfold tag_free. apply negb_true_iff.
  destruct (Py.str_in "<" (Bleach.clean s)) eqn:E; [|reflexivity].
  apply str_in_spec in E. destruct E as [pre [post E]].
  exfalso. apply (scan_free_of_lt s false). unfold free_of.
  fold (Bleach.clean s). rewrite E.
  clear. induction pre; simpl; auto.
Qed.

Lemma validate_json_input_cleans_what_it_reaches_witness :
  reached_all tag_free
    (validate_json_input Bleach.clean
       (VDict [("comment", VStr "<b>hi</b>");
               ("tags", VList [VStr "<i>a</i>"; VInt 1]);
               ("author", VDict [("name", VStr "<u>n</u>")])]))
  = true.
Proof.
  apply (validate_json_input_cleans_what_it_reaches Bleach.clean tag_free
           _ clean_tag_free).
Defined.

Lemma distinct_NoDup keys : distinct keys = true -> NoDup keys.
Proof.
  induction keys as [|k rest IH]; simpl; intros H; constructor;
    apply andb_true_iff in H; destruct H as [Hk Hrest].
  - intros Hin. apply list_in_spec in Hin. now rewrite Hin in Hk.
  - auto.
Qed.

Section sanitizer_fixed.
Variable clean : string -> string.

Let fixed (s : string) : bool := String.eqb (clean s) s.

Lemma settled_unchanged v :
  reached_all fixed v = true -> keys_distinct v = true ->
  sanitize_entry clean v = v.
Proof.
  induction v as [ | b | z | s | l IH | items IH ] using value_deep_ind;
    intros Hr Hk; try reflexivity.
  - simpl in *. apply String.eqb_eq in Hr. now rewrite Hr.
  - cbn [sanitize_entry]. f_equal. apply map_fixed.
    cbn [reached_all keys_distinct] in Hr, Hk.
    apply forallb_Forall in Hr. apply forallb_Forall in Hk.
    induction IH as [|x l Hx _ IHl]; constructor.
    + inversion Hr as [|? ? Hrx _]; inversion Hk as [|? ? Hkx _]; subst.
      destruct x; try reflexivity.
      * simpl in *. apply String.eqb_eq in Hrx. now rewrite Hrx.
      * exact (Hx Hrx Hkx).
    + inversion Hr; inversion Hk; subst. auto.
  - change (sanitize_entry clean (VDict items))
      with (validate_json_input clean (VDict items)).
    rewrite validate_json_input_dict. f_equal.
    cbn [reached_all keys_distinct] in Hr, Hk.
    apply andb_true_iff in Hk. destruct Hk as [Hd Hk].
    apply forallb_Forall in Hr. apply forallb_Forall in Hk.
    assert (Hm : map (on_value (sanitize_entry clean)) items = items).
    { apply map_fixed. clear Hd.
      induction IH as [|[k x] l Hx _ IHl]; constructor.
      - inversion Hr; inversion Hk; subst. unfold on_value. simpl.
        f_equal. now apply Hx.
      - inversion Hr; inversion Hk; subst. auto. }
    rewrite Hm. apply dict_of_distinct, distinct_NoDup, Hd.
Qed.

End sanitizer_fixed.

(** X18: [validate_json_input] returns a mapping unchanged, entry for entry
    and in the same order, when the string cleaner leaves every string it
    would reach as it is; in particular data without markup passes through
    the sanitizer untouched. *)
Theorem validate_json_input_keeps_clean_data (clean : string -> string)
  (items : list (string * value))
  (Hfixed : reached_all (fun s => String.eqb (clean s) s) (VDict items) = true)
  (Hkeys : keys_distinct (VDict items) = true) :
  validate_json_input clean (VDict items) = VDict items.
Proof.
  change (validate_json_input clean (VDict items))
    with (sanitize_entry clean (VDict items)).
  apply settled_unchanged.
  - exact Hfixed.
  - exact Hkeys.
Qed.

Lemma validate_json_input_keeps_clean_data_witness :
  let data :=
    VDict [("title", VStr "port scan > 1000 hosts");
           ("tags", VList [VStr "scan"; VList [VStr "<b>raw</b>"]]);
           ("asset", VDict [("id", VInt 7); ("name", VStr "db-01")])] in
  validate_json_input Bleach.clean data = data.
Proof.
  cbv zeta.
  apply (validate_json_input_keeps_clean_data Bleach.clean
           [("title", VStr "port scan > 1000 hosts");
            ("tags", VList [VStr "scan"; VList [VStr "<b>raw</b>"]]);
            ("asset", VDict [("id", VInt 7); ("name", VStr "db-01")])]);
    reflexivity.
Defined.

Lemma dict_set_keys_In {V} (d : list (string * V)) k v k' :
  In k' (Py.keys (Py.dict_set d k v)) <-> k' = k \/ In k' (Py.keys d).
Proof.
  induction d as [|[k0 v0] d IH]; simpl.
  - intuition.
  - destruct (String.eqb_spec k k0) as [->|Hne]; simpl.
    + intuition.
    + rewrite IH. intuition.
Qed.

Lemma dict_of_keys_In {V} (l : list (string * V)) k :
  In k (Py.keys (Py.dict_of l)) <-> In k (Py.keys l).
Proof.
  induction l as [|[k' v'] l IH] using rev_ind; [reflexivity|].
  rewrite dict_of_snoc, dict_set_keys_In, IH.
  unfold Py.keys. rewrite map_app, in_app_iff. simpl. intuition.
Qed.

(** X19: [validate_json_input] never touches the keys of a mapping: the
    result has exactly the keys of the input, each once, whatever markup a
    key contains. *)
Theorem validate_json_input_keeps_keys (clean : string -> string)
  (items : list (string * value)) :
  exists out,
    validate_json_input clean (VDict items) = VDict out
    /\ NoDup (Py.keys out)
    /\ (forall k, In k (Py.keys out) <-> In k (Py.keys items)).
Proof.
  eexists. split; [apply validate_json_input_dict|]. split.
  - apply dict_of_nodup.
  - intros k. rewrite dict_of_keys_In. unfold Py.keys.
    now rewrite map_map.
Qed.

(* ------------------------------------------------------------------------- *)
(** ** The validator of [CORS_ORIGINS] *)

Example assemble_cors_origins_ex :
  assemble_cors_origins (VStr " https://a.example , https://b.example")
  = Some (VList [VStr "https://a.example"; VStr "https://b.example"])
  /\ assemble_cors_origins (VStr "") = Some (VList [VStr ""])
  /\ assemble_cors_origins (VInt 3) = None.
Proof. repeat split. Qed.

Example format_ex :
  JSONFormatter_format "2024-01-01T00:00:00"
    (mkRecord "INFO" "app" "started" "main" "run" 12 (Some (VStr "id-1")) None
       (Some [("level", VStr "DEBUG")]))
  = PyJson.dumps
      (VDict [("timestamp", VStr "2024-01-01T00:00:00");
              ("level", VStr "DEBUG"); ("logger", VStr "app");
              ("message", VStr "started"); ("module", VStr "main");
              ("function", VStr "run"); ("line", VInt 12);
              ("request_id", VStr "id-1")]).
Proof. reflexivity. Qed.

Lemma split_text sep p : free_of sep p -> str_split sep p = [p].
Proof.
  unfold free_of. induction p as [|c p IH]; simpl; intros Hp; [reflexivity|].
  destruct (Ascii.eqb_spec c sep) as [->|Hne]; [tauto|].
  rewrite IH; tauto.
Qed.

Lemma split_app sep p r :
  free_of sep p ->
  str_split sep (p ++ String sep r) = p :: str_split sep r.
Proof.
  unfold free_of. induction p as [|c p IH]; simpl; intros Hp.
  - now rewrite Ascii.eqb_refl.
  - destruct (Ascii.eqb_spec c sep) as [->|Hne]; [tauto|].
    rewrite IH; tauto.
Qed.

Lemma split_join (l : list string) :
  l <> [] -> Forall (free_of ",") l -> str_split "," (Py.join "," l) = l.
Proof.
  induction l as [|p l IH]; intros Hne Hl; [congruence|].
  inversion Hl as [|? ? Hp Hrest]; subst.
  destruct l as [|q l].
  - simpl. now apply split_text.
  - change (Py.join "," (p :: q :: l))
      with (p ++ String "," (Py.join "," (q :: l))).
    rewrite split_app by assumption. f_equal. apply IH; [discriminate|].
    assumption.
Qed.

Lemma split_length sep s :
  length (str_split sep s) = S (count_char sep s).
Proof.
  induction s as [|c s IH]; simpl; [reflexivity|].
  destruct (Ascii.eqb c sep); simpl; [now rewrite IH|].
  destruct (str_split sep s); simpl in *; congruence.
Qed.

Lemma lstrip_no_lead l : no_lead (Py.lstrip l).
Proof.
  induction l as [|c l IH]; simpl; [exact I|].
  destruct (Py.is_space c) eqn:E; [exact IH | exact E].
Qed.

Lemma lstrip_fixed l : no_lead l -> Py.lstrip l = l.
Proof. destruct l as [|c l]; simpl; [reflexivity|]. now intros ->. Qed.

Lemma lstrip_suffix l : exists p, l = (p ++ Py.lstrip l)%list.
Proof.
  induction l as [|c l [p IH]]; simpl; [now exists []|].
  destruct (Py.is_space c); [|now exists []].
  exists (c :: p). simpl. now rewrite <- IH.
Qed.

Lemma rstrip_no_lead a : no_lead a -> no_lead (rev (Py.lstrip (rev a))).
Proof.
  intros Ha. destruct (lstrip_suffix (rev a)) as [p Hp].
  apply (f_equal (@rev ascii)) in Hp.
  rewrite rev_involutive, rev_app_distr in Hp.
  destruct (rev (Py.lstrip (rev a))) as [|c r]; [exact I|].
  rewrite Hp in Ha. exact Ha.
Qed.

Lemma strip_idempotent l : Py.strip (Py.strip l) = Py.strip l.
Proof.
  unfold Py.strip.
  rewrite (lstrip_fixed (rev (Py.lstrip (rev (Py.lstrip l))))).
  - rewrite rev_involutive.
    now rewrite (lstrip_fixed (Py.lstrip _)) by apply lstrip_no_lead.
  - apply rstrip_no_lead, lstrip_no_lead.
Qed.

Lemma str_strip_idempotent s : str_strip (str_strip s) = str_strip s.
Proof.
  unfold str_strip. rewrite list_ascii_of_string_of_list_ascii.
  now rewrite strip_idempotent.
Qed.

(** X20: a list of origins written as one comma-separated string comes back
    as that list: when no origin contains a comma or has white space at its
    ends and the string does not begin with a bracket, the validator turns
    the joined string into the origins, in their order. *)
Theorem cors_origins_round_trip (origins : list string)
  (Hsome : origins <> [])
  (Hplain : Forall (fun o => free_of "," o /\ str_strip o = o) origins)
  (Hopen : String.prefix "[" (Py.join "," origins) = false) :
  assemble_cors_origins (VStr (Py.join "," origins))
  = Some (VList (map VStr origins)).
Proof.
  unfold assemble_cors_origins. rewrite Hopen. cbn [negb].
  rewrite split_join; [|assumption|].
  - do 2 f_equal. apply map_ext_Forall.
    eapply Forall_impl; [|exact Hplain]. intros o [_ Ho]. simpl.
    now rewrite Ho.
  - eapply Forall_impl; [|exact Hplain]. now intros o [Ho _].
Qed.

Lemma cors_origins_round_trip_witness :
  assemble_cors_origins
    (VStr (Py.join "," ["https://soc.example"; "http://localhost:3000"]))
  = Some (VList [VStr "https://soc.example"; VStr "http://localhost:3000"]).
Proof.
  apply (cors_origins_round_trip
           ["https://soc.example"; "http://localhost:3000"]).
  - discriminate.
  - repeat constructor; try reflexivity;
      unfold free_of; simpl; intuition discriminate.
  - reflexivity.
Defined.

(** X21: from a string that does not begin with a bracket the validator
    makes one origin more than the string has commas, each without white
    space at its ends, so that the empty string gives one empty origin and
    not an empty list; a string that begins with a bracket is handed back as
    the string it is. *)
Theorem cors_origins_of_string (s : string) :
  (String.prefix "[" s = false ->
   exists parts,
     assemble_cors_origins (VStr s) = Some (VList (map VStr parts))
     /\ length parts = S (count_char "," s)
     /\ Forall (fun p => str_strip p = p) parts)
  /\ (String.prefix "[" s = true ->
      assemble_cors_origins (VStr s) = Some (VStr s)).
Proof.
  unfold assemble_cors_origins. split; intros ->; cbn [negb]; [|reflexivity].
  exists (map str_strip (str_split "," s)). split; [|split].
  - now rewrite map_map.
  - now rewrite length_map, split_length.
  - apply Forall_map, Forall_forall. intros p _. apply str_strip_idempotent.
Qed.

Lemma cors_origins_of_string_witness :
  (exists parts,
     assemble_cors_origins (VStr "") = Some (VList (map VStr parts))
     /\ length parts = 1%nat)
  /\ assemble_cors_origins (VStr "[https://soc.example]")
     = Some (VStr "[https://soc.example]").
Proof.
  destruct (cors_origins_of_string "") as (Hsplit & _).
  destruct (cors_origins_of_string "[https://soc.example]") as (_ & Hkeep).
  split.
  - destruct (Hsplit eq_refl) as (parts & Hparts & Hlen & _).
    exists parts. split; [exact Hparts | exact Hlen].
  - exact (Hkeep eq_refl).
Defined.

(* ------------------------------------------------------------------------- *)
(** ** The JSON formatter *)

Lemma dict_update_snoc {V} (d other : list (string * V)) k v :
  dict_update d (other ++ [(k, v)]) = Py.dict_set (dict_update d other) k v.
Proof. unfold dict_update. now rewrite fold_left_app. Qed.

(** After [d.update(other)] a key has the value of its last pair in
    [other], and the value it had in [d] when [other] does not name it. *)
Lemma dict_update_get {V} (d other : list (string * V)) k :
  Py.dict_get (dict_update d other) k
  = match Py.dict_get (rev other) k with
    | Some v => Some v
    | None => Py.dict_get d k
    end.
Proof.
  induction other as [|[k' v'] other IH] using rev_ind; [reflexivity|].
  rewrite dict_update_snoc, dict_get_set, rev_app_distr. simpl.
  destruct (String.eqb k k'); [reflexivity | exact IH].
Qed.

(** X22: in the dictionary the formatter serializes, a field of
    [extra_data] takes precedence over every other field of that name, the
    record's level, message and timestamp included; next come the
    [user_id] and [request_id] attributes of the record, which appear only
    when the record has them; the seven fixed fields keep the record's own
    values otherwise. *)
Theorem log_data_precedence (timestamp : string) (record : PyLogRecord)
  (k : string) :
  JSONFormatter_format timestamp record
  = PyJson.dumps (VDict (log_data timestamp record))
  /\ Py.dict_get (log_data timestamp record) k
     = match match rec_extra_data record with
             | Some extra_data => Py.dict_get (rev extra_data) k
             | None => None
             end with
       | Some v => Some v
       | None =>
           if String.eqb k "user_id" then rec_user_id record
           else if String.eqb k "request_id" then rec_request_id record
           else Py.dict_get
                  [("timestamp", VStr timestamp);
                   ("level", VStr (rec_levelname record));
                   ("logger", VStr (rec_name record));
                   ("message", VStr (rec_message record));
                   ("module", VStr (rec_module record));
                   ("function", VStr (rec_funcName record));
                   ("line", VInt (rec_lineno record))] k
       end.
Proof.
  split; [reflexivity|]. unfold log_data. cbv zeta.
  destruct (rec_extra_data record) as [e|];
    [ rewrite dict_update_get;
      destruct (Py.dict_get (rev e) k); [reflexivity|] | ];
    destruct (rec_user_id record), (rec_request_id record);
    rewrite ?dict_get_set;
    destruct (String.eqb_spec k "user_id") as [->|Hu]; try reflexivity;
    destruct (String.eqb_spec k "request_id") as [->|Hr]; reflexivity.
Qed.

(* ------------------------------------------------------------------------- *)
(** ** A route reply on its way out *)

(** X9: the reply of a route behind the gate reaches the server with its
    status and body unchanged and with the gate's six headers set on its
    start message, and the logger records its completion with that status
    and the identifier the gate drew, after the record of the arrival. *)
Theorem route_reply_passes_wrapper_and_logger (hosts : list string)
  (scope : Scope) (w : World) (status : Z)
  (headers : list (string * string)) (text : string)
  (Hhttp : scope_type scope = "http")
  (Hhost : _validate_host (gate hosts) scope = true)
  (Hsize : size_ok (gate hosts) scope) :
  let after := snd (serve hosts (Replies status headers text) scope w) in
  wire after
  = (wire w
     ++ [ResponseStart status (with_security_headers (uuid_next w) headers);
         ResponseBody text])%list
  /\ log after
     = (log w
        ++ [incoming_record scope w;
            mkLog "info" "Request completed"
              [("status_code", LVal (VInt status));
               ("process_time", LElapsed);
               ("request_id", LVal (VStr (uuid_next w)))]])%list.
Proof.
  cbv zeta. rewrite serve_http by assumption.
  unfold try_except. rewrite security_delegates by assumption.
  unfold ExceptionMiddleware, router, with_security_headers.
  settle w. rewrite <- !app_assoc. split; reflexivity.
Qed.

Lemma route_reply_passes_wrapper_and_logger_witness :
  wire (snd (serve ["example.com"]
               (Replies 201 [("location", "/api/v1/alerts/7")] "created")
               (http_get [("host", "api.example.com")]) (arrival "id-1")))
  = [ResponseStart 201
       [("location", "/api/v1/alerts/7");
        ("x-content-type-options", "nosniff");
        ("x-frame-options", "DENY");
        ("x-xss-protection", "1; mode=block");
        ("referrer-policy", "strict-origin-when-cross-origin");
        ("content-security-policy", "default-src 'self'");
        ("x-request-id", "id-1")];
     ResponseBody "created"].
Proof.
  destruct (route_reply_passes_wrapper_and_logger ["example.com"]
              (http_get [("host", "api.example.com")]) (arrival "id-1") 201
              [("location", "/api/v1/alerts/7")] "created"
              eq_refl eq_refl eq_refl) as (Hwire & _).
  exact Hwire.
Defined.

(* ------------------------------------------------------------------------- *)
(** ** Exceptions that a handler meets before the classifier *)

(** C5, evaluated where it fails: the exception the limiter raises has no
    [retry_after], so the rate-limit handler writes its warning and then
    raises an attribute error where it reads [exc.retry_after]; the error
    leaves the exception middleware and the gate, and the Error Classifier
    answers with the 500 envelope, sent past the gate's header wrapper.
    Given an exception that has the attribute, the handler builds the 429
    response with [retry_after]. *)
Theorem rate_limit_answered_as_internal_error (hosts : list string)
  (scope : Scope) (w : World) (retry_after : value)
  (Hhttp : scope_type scope = "http")
  (Hhost : _validate_host (gate hosts) scope = true)
  (Hsize : size_ok (gate hosts) scope) :
  let exc := RateLimitExceeded None in
  let after := serve hosts (Fails exc) scope w in
  fst (rate_limit_handler scope exc (stamp w))
  = Raised (AttributeError "retry_after")
  /\ fst after = Returned tt
  /\ wire (snd after)
     = (wire w
        ++ sent (JSONResponse 500
                   (VDict [("error", VStr "INTERNAL_SERVER_ERROR");
                           ("detail", VStr "An internal server error occurred");
                           ("request_id", VStr (uuid_next w))])))%list
  /\ log (snd after)
     = (log w
        ++ [incoming_record scope w;
            mkLog "warning" "Rate limit exceeded"
              [("client_ip", LVal (VStr (get_remote_address scope)));
               ("request_id", LVal (VStr (uuid_next w)))];
            mkLog "error" "Internal server error"
              [("error_type", LTypeName (AttributeError "retry_after"));
               ("error_message", LMessage (AttributeError "retry_after"));
               ("traceback", LTraceback (AttributeError "retry_after"));
               ("request_id", LVal (VStr (uuid_next w)));
               ("path", LVal (VStr (scope_path scope)));
               ("method", LVal (VStr (scope_method scope)))]])%list
  /\ fst (rate_limit_handler scope (RateLimitExceeded (Some retry_after))
            (stamp w))
     = Returned
         (JSONResponse 429
            (VDict [("detail",
                     VStr "Rate limit exceeded. Please try again later.");
                    ("retry_after", retry_after)])).
Proof.
  cbv zeta. rewrite serve_http by assumption.
  unfold try_except. rewrite security_delegates by assumption.
  unfold ExceptionMiddleware, router, sent.
  settle w. rewrite <- !app_assoc. repeat split.
Qed.

Lemma rate_limit_answered_as_internal_error_witness :
  wire (snd (serve ["*"] (Fails (RateLimitExceeded None))
               (http_get [("host", "gateway")]) (arrival "id-1")))
  = sent (JSONResponse 500
            (VDict [("error", VStr "INTERNAL_SERVER_ERROR");
                    ("detail", VStr "An internal server error occurred");
                    ("request_id", VStr "id-1")])).
Proof.
  destruct (rate_limit_answered_as_internal_error ["*"]
              (http_get [("host", "gateway")]) (arrival "id-1") VNone
              eq_refl eq_refl eq_refl) as (_ & _ & Hwire & _).
  exact Hwire.
Defined.

(** C7, evaluated where it fails: a request that fails schema validation in
    route dispatch never reaches the classifier.  The framework's own
    handler answers it inside the gate with status 422 and the reported
    failures under [detail]: the body has no error kind, no fixed message
    and no request_id, and the classifier writes no log record.  The branch
    of the classifier that would build the VALIDATION_ERROR envelope is
    there; a data-model validation failure, for which the framework has no
    handler, does get its envelope from the classifier. *)
Theorem request_validation_error_answered_by_framework
  (hosts : list string) (scope : Scope) (w : World)
  (errors : list ErrorDict)
  (Hhttp : scope_type scope = "http")
  (Hhost : _validate_host (gate hosts) scope = true)
  (Hsize : size_ok (gate hosts) scope) :
  let reply :=
    JSONResponse 422 (VDict [("detail", VList (map reported_error errors))]) in
  let envelope := fun detail =>
    JSONResponse 422
      (VDict [("error", VStr "VALIDATION_ERROR");
              ("detail", VStr detail);
              ("errors", VList (map field_error errors));
              ("request_id", VStr (uuid_next w))]) in
  let after := serve hosts (Fails (RequestValidationError errors)) scope w in
  wire (snd after)
  = (wire w
     ++ [ResponseStart 422 (raw_headers reply ++ security_headers (uuid_next w));
         ResponseBody (body reply)])%list
  /\ content_get (resp_content reply) "error" = None
  /\ content_get (resp_content reply) "errors" = None
  /\ content_get (resp_content reply) "request_id" = None
  /\ log (snd after)
     = (log w
        ++ [incoming_record scope w;
            mkLog "info" "Request completed"
              [("status_code", LVal (VInt 422));
               ("process_time", LElapsed);
               ("request_id", LVal (VStr (uuid_next w)))]])%list
  /\ fst (_handle_exception scope (RequestValidationError errors) (stamp w))
     = Returned (envelope "Request validation failed")
  /\ wire (snd (serve hosts (Fails (ValidationError errors)) scope w))
     = (wire w ++ sent (envelope "Data validation failed"))%list.
Proof.
  cbv zeta. rewrite !serve_http by assumption.
  unfold try_except. rewrite !security_delegates by assumption.
  unfold ExceptionMiddleware, router, sent.
  settle w. rewrite collect_errors_map, <- !app_assoc. repeat split.
Qed.

Lemma request_validation_error_answered_by_framework_witness :
  let errors :=
    [mkError [LocStr "body"; LocStr "items"; LocInt 0; LocStr "name"]
       "field required" "value_error.missing"] in
  let reply :=
    JSONResponse 422
      (VDict [("detail",
               VList [VDict [("loc", VList [VStr "body"; VStr "items";
                                            VInt 0; VStr "name"]);
                             ("msg", VStr "field required");
                             ("type", VStr "value_error.missing")]])]) in
  wire (snd (serve ["*"] (Fails (RequestValidationError errors))
               (http_get [("host", "gateway")]) (arrival "id-1")))
  = [ResponseStart 422 (raw_headers reply ++ security_headers "id-1");
     ResponseBody (body reply)].
Proof.
  cbv zeta.
  destruct (request_validation_error_answered_by_framework ["*"]
              (http_get [("host", "gateway")]) (arrival "id-1")
              [mkError [LocStr "body"; LocStr "items"; LocInt 0; LocStr "name"]
                 "field required" "value_error.missing"]
              eq_refl eq_refl eq_refl) as (Hwire & _).
  exact Hwire.
Defined.
